(** * EmpathyEngine front end: request adapter and result renderer

    A shallow embedding of the two variants of the page script,
    [src/unnamed/part_000] and [src/Frontend/script.js]: the [analyzeChat]
    request adapter and the click handler of [analyzeBtn], with the
    properties of the specification stated over them.

    What the model takes from outside: the text of the input box, what the
    one request of an invocation meets (a failed fetch, or a response with a
    status and a body that parses or not), and the behaviour of Chart.js.
    It covers one invocation at a time, pages that have the elements the
    script looks up, and bodies that, when they parse, have the shape of an
    analysis result. *)

From Stdlib Require Import List NArith ZArith QArith Bool Ascii String Lia.
From Stdlib Require Import DecimalString.
From Stdlib Require DecimalNat DecimalFacts Finite.
Import ListNotations.

Set Implicit Arguments.
Local Open Scope N_scope.

(** ** JavaScript strings and the built-ins the script calls *)

(** A JavaScript string is a sequence of UTF-16 code units. *)
Definition code_unit := N.
Definition jsstring := list code_unit.

(** An ASCII literal of the source, as a JavaScript string. *)
Definition lit (s : string) : jsstring :=
  map N_of_ascii (list_ascii_of_string s).

Definition LF : code_unit := 10.
Definition DQUOTE : code_unit := 34.
Definition BACKSLASH : code_unit := 92.

Fixpoint str_eqb (a b : jsstring) : bool :=
  match a, b with
  | [], [] => true
  | x :: a', y :: b' => (x =? y) && str_eqb a' b'
  | _, _ => false
  end.

(** ECMAScript WhiteSpace and LineTerminator code points, the ones
    [String.prototype.trim] strips; they all lie in the basic plane. *)
Definition isWhiteSpace (c : code_unit) : bool :=
  (c =? 9) || (c =? 10) || (c =? 11) || (c =? 12) || (c =? 13) || (c =? 32)
  || (c =? 160) || (c =? 5760)
  || ((8192 <=? c) && (c <=? 8202))
  || (c =? 8232) || (c =? 8233) || (c =? 8239) || (c =? 8287)
  || (c =? 12288) || (c =? 65279).

Fixpoint trimStart (s : jsstring) : jsstring :=
  match s with
  | [] => []
  | c :: s' => if isWhiteSpace c then trimStart s' else s
  end.

Definition trimEnd (s : jsstring) : jsstring := rev (trimStart (rev s)).

(** [s.trim()] *)
Definition trim (s : jsstring) : jsstring := trimEnd (trimStart s).

(** [s.split("\n")]: the pieces between occurrences of the line feed; the
    result is never empty (the empty string splits to one empty piece). *)
Fixpoint split_nl (s : jsstring) : list jsstring :=
  match s with
  | [] => [[]]
  | c :: s' =>
      if c =? LF then [] :: split_nl s'
      else match split_nl s' with
           | [] => [[c]]
           | piece :: rest => (c :: piece) :: rest
           end
  end.

(** [`${n}`] for an array index or length [n]: a non-negative integer below
    2^32, printed in decimal. *)
Definition nat_to_string (n : nat) : jsstring :=
  lit (NilZero.string_of_uint (Nat.to_uint n)).

Definition N_to_string (n : N) : jsstring :=
  lit (NilZero.string_of_uint (N.to_uint n)).

(** *** JSON.stringify on the request payload *)

Definition hex_digit (d : N) : code_unit :=
  if d <? 10 then 48 + d else 87 + d.

(** Four lower-case hexadecimal digits, as in a [\uXXXX] escape. *)
Definition hex4 (c : code_unit) : jsstring :=
  [ hex_digit ((c / 4096) mod 16); hex_digit ((c / 256) mod 16);
    hex_digit ((c / 16) mod 16); hex_digit (c mod 16) ].

Definition unicode_escape (c : code_unit) : jsstring :=
  [BACKSLASH; 117] ++ hex4 c.

Definition isLeadingSurrogate (c : code_unit) : bool :=
  (55296 <=? c) && (c <=? 56319).
Definition isTrailingSurrogate (c : code_unit) : bool :=
  (56320 <=? c) && (c <=? 57343).

(** The body of QuoteJSONString: the short escapes, [\uXXXX] for the other
    control characters and for lone surrogates, every other code point as
    it is. *)
Fixpoint quote_chars (s : jsstring) : jsstring :=
  match s with
  | [] => []
  | c :: s' =>
      if c =? 8 then [BACKSLASH; 98] ++ quote_chars s'
      else if c =? 9 then [BACKSLASH; 116] ++ quote_chars s'
      else if c =? 10 then [BACKSLASH; 110] ++ quote_chars s'
      else if c =? 12 then [BACKSLASH; 102] ++ quote_chars s'
      else if c =? 13 then [BACKSLASH; 114] ++ quote_chars s'
      else if c =? DQUOTE then [BACKSLASH; DQUOTE] ++ quote_chars s'
      else if c =? BACKSLASH then [BACKSLASH; BACKSLASH] ++ quote_chars s'
      else if c <? 32 then unicode_escape c ++ quote_chars s'
      else if isLeadingSurrogate c then
        match s' with
        | d :: s'' =>
            if isTrailingSurrogate d then c :: d :: quote_chars s''
            else unicode_escape c ++ quote_chars s'
        | [] => unicode_escape c
        end
      else if isTrailingSurrogate c then unicode_escape c ++ quote_chars s'
      else c :: quote_chars s'
  end.

Definition QuoteJSONString (s : jsstring) : jsstring :=
  [DQUOTE] ++ quote_chars s ++ [DQUOTE].

Fixpoint join_with (sep : jsstring) (l : list jsstring) : jsstring :=
  match l with
  | [] => []
  | [x] => x
  | x :: rest => x ++ sep ++ join_with sep rest
  end.

(** [JSON.stringify({ messages })] for an array of strings. *)
Definition JSON_stringify_payload (messages : list jsstring) : jsstring :=
  lit "{" ++ QuoteJSONString (lit "messages") ++ lit ":[" ++
  join_with (lit ",") (map QuoteJSONString messages) ++ lit "]}".

(** ** The message list (both variants, the first two lines of the
    click handler) *)

(** [rawText.split("\n").filter(m => m.trim() !== "")] *)
Definition messages_of (rawText : jsstring) : list jsstring :=
  filter (fun m => negb (str_eqb (trim m) [])) (split_nl rawText).

(** The specification's wording, for comparison: a line is blank when it
    consists of whitespace only, and the lines of a text are the pieces
    that, joined by line feeds, give the text back. *)
Definition blank (m : jsstring) : bool := forallb isWhiteSpace m.
Definition join_nl (ls : list jsstring) : jsstring := join_with [LF] ls.
Definition no_newline (m : jsstring) : Prop := ~ In LF m.


(** ** Values, errors and page elements *)

(** What a property read on the color table can give: nothing, one of the
    table's own strings, or a member that the object literal inherits from
    [Object.prototype] (a function or object, named here by its key). *)
Inductive JSValue :=
| VUndefined
| VString (s : jsstring)
| VInherited (name : jsstring).

Record JsError := { err_name : jsstring; err_message : jsstring }.

(** The two variants of the script under [src/]. *)
Inductive Variant := Part000 | FrontendScript.

(** A [span] appended to [#tags]; the style fields hold the values the
    script assigns. *)
Record Tag := {
  tag_className : jsstring;
  tag_borderColor : JSValue;
  tag_color : JSValue;
  tag_textContent : jsstring }.

(** A [div] appended to [#breakdown]. *)
Record MsgItem := {
  item_className : jsstring;
  item_innerHTML : jsstring }.

Record Request := {
  req_url : jsstring;
  req_method : jsstring;
  req_headers : list (jsstring * jsstring);
  req_body : jsstring }.

Inductive CanvasId := timelineChart | pieChart | barChart.

(** *** The emotion color table *)

Definition baseColors : list (string * string) :=
  [ ("admiration", "#6A5ACD"); ("amusement", "#FFB347"); ("anger", "#FF4500");
    ("annoyance", "#FF6347"); ("approval", "#4B0082"); ("caring", "#DB7093");
    ("confusion", "#8A2BE2"); ("curiosity", "#20B2AA"); ("desire", "#FF69B4");
    ("disappointment", "#708090"); ("disapproval", "#A52A2A");
    ("disgust", "#556B2F");
    ("embarrassment", "#CD5C5C"); ("excitement", "#FFA500"); ("fear", "#8B0000");
    ("gratitude", "#32CD32"); ("grief", "#2F4F4F"); ("joy", "#FFD700");
    ("love", "#FF1493"); ("nervousness", "#E9967A"); ("optimism", "#00FA9A");
    ("pride", "#4682B4"); ("realization", "#7B68EE"); ("relief", "#87CEEB");
    ("remorse", "#8B4513"); ("sadness", "#1E90FF"); ("surprise", "#00CED1");
    ("neutral", "#604b61ff") ]%string.

Definition emotionColors (v : Variant) : list (jsstring * jsstring) :=
  map (fun p => (lit (fst p), lit (snd p)))
      (baseColors ++
       match v with
       | Part000 => [("uncertain", "#999999")]%string
       | FrontendScript => []
       end).

(** An object's own properties, in the order [Object.keys] lists them. *)
Definition Object_keys {A} (o : list (jsstring * A)) : list jsstring :=
  map fst o.
Definition Object_values {A} (o : list (jsstring * A)) : list A :=
  map snd o.

Fixpoint own_get {A} (o : list (jsstring * A)) (k : jsstring) : option A :=
  match o with
  | [] => None
  | (k', x) :: o' => if str_eqb k k' then Some x else own_get o' k
  end.

(** The keys every object literal inherits from [Object.prototype]. *)
Definition ObjectPrototype_keys : list jsstring :=
  map lit
    [ "constructor"; "hasOwnProperty"; "isPrototypeOf";
      "propertyIsEnumerable"; "toLocaleString"; "toString"; "valueOf";
      "__proto__"; "__defineGetter__"; "__defineSetter__";
      "__lookupGetter__"; "__lookupSetter__" ]%string.

(** [emotionColors[e]]: an own entry, else what the prototype has under
    that key, else [undefined]. *)
Definition emotionColors_get (v : Variant) (e : jsstring) : JSValue :=
  match own_get (emotionColors v) e with
  | Some c => VString c
  | None =>
      if existsb (str_eqb e) ObjectPrototype_keys then VInherited e
      else VUndefined
  end.

Definition truthy (x : JSValue) : bool :=
  match x with
  | VUndefined => false
  | VString s => negb (str_eqb s [])
  | VInherited _ => true
  end.

(** [a || b] *)
Definition js_or (a b : JSValue) : JSValue := if truthy a then a else b.

Definition fallbackColor : JSValue := VString (lit "#888").

(** [emotionColors[e] || "#888"] *)
Definition resolveColor (v : Variant) (e : jsstring) : JSValue :=
  js_or (emotionColors_get v e) fallbackColor.

(** ** The pipeline *)

Section Pipeline.

(** The numbers of a response (counts and scores) are only passed on and
    printed: their type and [Number::toString] are parameters. *)
Variable Num : Type.
Variable NumToString : Num -> jsstring.

(** [`${x}`] for a member inherited from [Object.prototype], by its key
    (the text is the engine's). *)
Variable InheritedToString : jsstring -> jsstring.

Record TimelineEntry := {
  text : jsstring;
  emotion : jsstring;
  score : Num }.

(** A well-shaped response body; [emotion_distribution] lists the
    object's properties in key order. *)
Record AnalysisResult := {
  emotional_trend : jsstring;
  emotion_distribution : list (jsstring * Num);
  timeline : list TimelineEntry }.

(** *** Chart configurations *)

Record Dataset := {
  ds_label : option jsstring;
  ds_data : list Num;
  ds_borderColor : option jsstring;
  ds_pointBackgroundColor : option (list JSValue);
  ds_backgroundColor : option (list JSValue);
  ds_borderWidth : option N;
  ds_tension : option Q }.

Inductive YScale :=
| YMinMax (min max : Z)
| YBeginAtZero (b : bool).

Record ChartOptions := {
  opt_responsive : bool;
  opt_maintainAspectRatio : option bool;
  opt_scales_y : option YScale }.

Record ChartConfig := {
  chart_type : jsstring;
  chart_labels : list jsstring;
  chart_datasets : list Dataset;
  chart_options : ChartOptions }.

(** What the script does to a canvas. *)
Inductive CanvasOp :=
| ClearRect (x y w h : Z)
| NewChart (cfg : ChartConfig).

(** Chart.js is not part of the repository: whether [new Chart] on a
    canvas with the given history returns ([None]) or throws is a
    parameter. *)
Variable ChartCtor : CanvasId -> list CanvasOp -> ChartConfig -> option JsError.

(** *** The page and its environment *)

Record World := {
  inputBox_value : jsstring;
  (** one flag per element that is in the document when the handler
      starts: does it carry the class [hidden]? Elements that the
      [innerHTML] assignments of the handler create are not tracked. *)
  hidden_class : list bool;
  tags_children : list Tag;
  breakdown_children : list MsgItem;
  trendBox_innerHTML : jsstring;
  timelineChart_ops : list CanvasOp;
  pieChart_ops : list CanvasOp;
  barChart_ops : list CanvasOp;
  (** the texts shown by [alert], oldest first *)
  alerts : list jsstring;
  (** the requests issued by [fetch], oldest first *)
  requests : list Request }.

Definition canvas_ops (w : World) (c : CanvasId) : list CanvasOp :=
  match c with
  | timelineChart => timelineChart_ops w
  | pieChart => pieChart_ops w
  | barChart => barChart_ops w
  end.

Definition set_canvas_ops (c : CanvasId) (ops : list CanvasOp) (w : World) : World :=
  {| inputBox_value := inputBox_value w;
     hidden_class := hidden_class w;
     tags_children := tags_children w;
     breakdown_children := breakdown_children w;
     trendBox_innerHTML := trendBox_innerHTML w;
     timelineChart_ops :=
       match c with timelineChart => ops | _ => timelineChart_ops w end;
     pieChart_ops := match c with pieChart => ops | _ => pieChart_ops w end;
     barChart_ops := match c with barChart => ops | _ => barChart_ops w end;
     alerts := alerts w;
     requests := requests w |}.

Definition set_hidden_class (h : list bool) (w : World) : World :=
  {| inputBox_value := inputBox_value w;
     hidden_class := h;
     tags_children := tags_children w;
     breakdown_children := breakdown_children w;
     trendBox_innerHTML := trendBox_innerHTML w;
     timelineChart_ops := timelineChart_ops w;
     pieChart_ops := pieChart_ops w;
     barChart_ops := barChart_ops w;
     alerts := alerts w;
     requests := requests w |}.

Definition set_tags_children (l : list Tag) (w : World) : World :=
  {| inputBox_value := inputBox_value w;
     hidden_class := hidden_class w;
     tags_children := l;
     breakdown_children := breakdown_children w;
     trendBox_innerHTML := trendBox_innerHTML w;
     timelineChart_ops := timelineChart_ops w;
     pieChart_ops := pieChart_ops w;
     barChart_ops := barChart_ops w;
     alerts := alerts w;
     requests := requests w |}.

Definition set_breakdown_children (l : list MsgItem) (w : World) : World :=
  {| inputBox_value := inputBox_value w;
     hidden_class := hidden_class w;
     tags_children := tags_children w;
     breakdown_children := l;
     trendBox_innerHTML := trendBox_innerHTML w;
     timelineChart_ops := timelineChart_ops w;
     pieChart_ops := pieChart_ops w;
     barChart_ops := barChart_ops w;
     alerts := alerts w;
     requests := requests w |}.

Definition set_trendBox_innerHTML (s : jsstring) (w : World) : World :=
  {| inputBox_value := inputBox_value w;
     hidden_class := hidden_class w;
     tags_children := tags_children w;
     breakdown_children := breakdown_children w;
     trendBox_innerHTML := s;
     timelineChart_ops := timelineChart_ops w;
     pieChart_ops := pieChart_ops w;
     barChart_ops := barChart_ops w;
     alerts := alerts w;
     requests := requests w |}.

Definition set_alerts (l : list jsstring) (w : World) : World :=
  {| inputBox_value := inputBox_value w;
     hidden_class := hidden_class w;
     tags_children := tags_children w;
     breakdown_children := breakdown_children w;
     trendBox_innerHTML := trendBox_innerHTML w;
     timelineChart_ops := timelineChart_ops w;
     pieChart_ops := pieChart_ops w;
     barChart_ops := barChart_ops w;
     alerts := l;
     requests := requests w |}.

Definition set_requests (l : list Request) (w : World) : World :=
  {| inputBox_value := inputBox_value w;
     hidden_class := hidden_class w;
     tags_children := tags_children w;
     breakdown_children := breakdown_children w;
     trendBox_innerHTML := trendBox_innerHTML w;
     timelineChart_ops := timelineChart_ops w;
     pieChart_ops := pieChart_ops w;
     barChart_ops := barChart_ops w;
     alerts := alerts w;
     requests := l |}.

(** *** Statements that read and change the page, and may throw *)

Inductive Outcome (A : Type) :=
| Returned (a : A)
| Threw (e : JsError).
Arguments Threw {A} e.

Definition M (A : Type) : Type := World -> Outcome A * World.

Definition ret {A} (a : A) : M A := fun w => (Returned a, w).
Definition throw {A} (e : JsError) : M A := fun w => (Threw e, w).
Definition bind {A B} (m : M A) (k : A -> M B) : M B :=
  fun w =>
    match m w with
    | (Returned a, w') => k a w'
    | (Threw e, w') => (Threw e, w')
    end.
(** [try { m } catch (err) { h err }] *)
Definition tryCatch {A} (m : M A) (h : JsError -> M A) : M A :=
  fun w =>
    match m w with
    | (Returned a, w') => (Returned a, w')
    | (Threw e, w') => h e w'
    end.
Definition modify (f : World -> World) : M unit :=
  fun w => (Returned tt, f w).
Definition gets {A} (f : World -> A) : M A :=
  fun w => (Returned (f w), w).

Notation "x <- c1 ;; c2" := (bind c1 (fun x => c2))
  (at level 100, c1 at next level, right associativity).
Notation "c1 ;;; c2" := (bind c1 (fun _ => c2))
  (at level 100, right associativity).

(** [l.forEach(f)] and [l.forEach((x, index) => f x index)] *)
Fixpoint forEach {A} (l : list A) (f : A -> M unit) : M unit :=
  match l with
  | [] => ret tt
  | x :: l' => f x ;;; forEach l' f
  end.

Fixpoint forEach_from {A} (index : nat) (l : list A)
         (f : A -> nat -> M unit) : M unit :=
  match l with
  | [] => ret tt
  | x :: l' => f x index ;;; forEach_from (S index) l' f
  end.

(** [l.map((x, i) => f x i)], indices counted from [index] *)
Fixpoint map_from {A B} (index : nat) (f : A -> nat -> B) (l : list A) : list B :=
  match l with
  | [] => []
  | x :: l' => f x index :: map_from (S index) f l'
  end.

(** *** The network *)

(** What [response.json()] makes of the body: a well-shaped analysis
    result, or a parse error. A body that parses to anything else (an
    object without the three fields, [null]) is outside the model. *)
Inductive BodyJSON :=
| ParsesTo (r : AnalysisResult)
| ParseFails (e : JsError).

Record Response := { status : N; body : BodyJSON }.

(** What the one [fetch] of an invocation meets. *)
Inductive FetchOutcome :=
| NetworkFailure (e : JsError)
| Responds (r : Response).

(** [response.ok] *)
Definition ok (r : Response) : bool := (200 <=? status r) && (status r <=? 299).

Definition fetch (rq : Request) (net : FetchOutcome) : M Response :=
  modify (fun w => set_requests (requests w ++ [rq]) w) ;;;
  match net with
  | NetworkFailure e => throw e
  | Responds r => ret r
  end.

(** [response.json()] *)
Definition json (r : Response) : M AnalysisResult :=
  match body r with
  | ParsesTo x => ret x
  | ParseFails e => throw e
  end.

Definition endpoint (v : Variant) : jsstring :=
  match v with
  | Part000 => lit "https://empathyengine-vivekvardhan592.hf.space/analyze-chat"
  | FrontendScript => lit "http://127.0.0.1:8000/analyze-chat"
  end.

Definition analyze_request (v : Variant) (messages : list jsstring) : Request :=
  {| req_url := endpoint v;
     req_method := lit "POST";
     req_headers := [(lit "Content-Type", lit "application/json")];
     req_body := JSON_stringify_payload messages |}.

(** [new Error(message)] *)
Definition Error (message : jsstring) : JsError :=
  {| err_name := lit "Error"; err_message := message |}.

Definition analyzeChat (v : Variant) (net : FetchOutcome)
           (messages : list jsstring) : M AnalysisResult :=
  response <- fetch (analyze_request v messages) net ;;
  match v with
  | Part000 =>
      if negb (ok response)
      then throw (Error (lit "Backend error: " ++ N_to_string (status response)))
      else ret tt
  | FrontendScript => ret tt
  end ;;;
  json response.

(** *** The renderer's steps *)

Definition showSections : M unit :=
modify (fun w => set_hidden_class (map (fun _ => false) (hidden_class w)) w).

(** [alert(s)] *)
Definition alert (s : jsstring) : M unit :=
modify (fun w => set_alerts (alerts w ++ [s]) w).

(** [canvas.getContext("2d").clearRect(x, y, w, h)] *)
Definition clearRect (c : CanvasId) (x y wd ht : Z) : M unit :=
modify (fun w => set_canvas_ops c (canvas_ops w c ++ [ClearRect x y wd ht]) w).

(** [new Chart(canvas, cfg)] *)
Definition newChart (c : CanvasId) (cfg : ChartConfig) : M unit :=
fun w =>
  match ChartCtor c (canvas_ops w c) cfg with
  | None => (Returned tt, set_canvas_ops c (canvas_ops w c ++ [NewChart cfg]) w)
  | Some e => (Threw e, w)
  end.

(** [`${x}`] for a value read from the color table *)
Definition ToString (x : JSValue) : jsstring :=
match x with
| VUndefined => lit "undefined"
| VString s => s
| VInherited k => InheritedToString k
end.

(** [`${distribution[emotion]}`]; for a key of the object the property is
    its own. *)
Definition count_text (distribution : list (jsstring * Num)) (e : jsstring) : jsstring :=
match own_get distribution e with
| Some n => NumToString n
| None => lit "undefined"
end.

Definition make_tag (v : Variant) (distribution : list (jsstring * Num))
           (e : jsstring) : Tag :=
let color := resolveColor v e in
{| tag_className := lit "tag";
   tag_borderColor := color;
   tag_color := color;
   tag_textContent := e ++ lit " (" ++ count_text distribution e ++ lit ")" |}.

(** The template literal assigned to [div.innerHTML]; the variants differ
    in one line break. *)
Definition breakdown_markup (v : Variant) (number : jsstring)
           (txt emo color : jsstring) : jsstring :=
[LF] ++ lit "      <b>" ++ number ++ lit ". " ++ [DQUOTE] ++ txt ++ [DQUOTE]
++ lit "</b><br>" ++ [LF]
++ match v with
   | Part000 => lit "      Emotion: "
   | FrontendScript => lit "      Emotion: " ++ [LF] ++ lit "      "
   end
++ lit "<span class=" ++ [DQUOTE] ++ lit "emotionLabel" ++ [DQUOTE]
++ lit " style=" ++ [DQUOTE] ++ lit "background:" ++ color ++ [DQUOTE]
++ lit ">" ++ emo ++ lit "</span>" ++ [LF] ++ lit "    ".

Definition make_item (v : Variant) (item : TimelineEntry) (index : nat) : MsgItem :=
let color := resolveColor v (emotion item) in
{| item_className := lit "msgItem";
   item_innerHTML :=
     breakdown_markup v (nat_to_string (index + 1)) (text item)
                      (emotion item) (ToString color) |}.

Definition lineChartConfig (v : Variant) (result : AnalysisResult) : ChartConfig :=
{| chart_type := lit "line";
   chart_labels :=
     map_from 0 (fun _ i => lit "Message " ++ nat_to_string (i + 1))
              (timeline result);
   chart_datasets :=
     [ {| ds_label := Some (lit "Intensity");
          ds_data := map score (timeline result);
          ds_borderColor := Some (lit "#38bdf8");
          ds_pointBackgroundColor :=
            Some (map (fun t => emotionColors_get v (emotion t)) (timeline result));
          ds_backgroundColor := None;
          ds_borderWidth := Some 3;
          ds_tension := Some (4 # 10)%Q |} ];
   chart_options :=
     {| opt_responsive := true;
        opt_maintainAspectRatio := Some false;
        opt_scales_y := Some (YMinMax 0 1) |} |}.

Definition pieChartConfig (v : Variant) (result : AnalysisResult) : ChartConfig :=
let distribution := emotion_distribution result in
{| chart_type := lit "pie";
   chart_labels := Object_keys distribution;
   chart_datasets :=
     [ {| ds_label := None;
          ds_data := Object_values distribution;
          ds_borderColor := None;
          ds_pointBackgroundColor := None;
          ds_backgroundColor :=
            Some (map (fun e => emotionColors_get v e) (Object_keys distribution));
          ds_borderWidth := None;
          ds_tension := None |} ];
   chart_options :=
     {| opt_responsive := true;
        opt_maintainAspectRatio := None;
        opt_scales_y := None |} |}.

Definition barChartConfig (v : Variant) (result : AnalysisResult) : ChartConfig :=
let distribution := emotion_distribution result in
{| chart_type := lit "bar";
   chart_labels := Object_keys distribution;
   chart_datasets :=
     [ {| ds_label := Some (lit "Count");
          ds_data := Object_values distribution;
          ds_borderColor := None;
          ds_pointBackgroundColor := None;
          ds_backgroundColor :=
            Some (map (fun e => emotionColors_get v e) (Object_keys distribution));
          ds_borderWidth := None;
          ds_tension := None |} ];
   chart_options :=
     {| opt_responsive := true;
        opt_maintainAspectRatio := Some false;
        opt_scales_y := Some (YBeginAtZero true) |} |}.

(** The three [innerHTML = ""] assignments and, in [part_000], the three
    [clearRect] calls. *)
Definition reset (v : Variant) : M unit :=
modify (set_tags_children []) ;;;
modify (set_breakdown_children []) ;;;
modify (set_trendBox_innerHTML []) ;;;
match v with
| Part000 =>
    clearRect timelineChart 0 0 400 400 ;;;
    clearRect pieChart 0 0 400 400 ;;;
    clearRect barChart 0 0 400 400
| FrontendScript => ret tt
end.

(** The click handler from [showSections()] on. *)
Definition render (v : Variant) (result : AnalysisResult) : M unit :=
showSections ;;;
reset v ;;;
modify (set_trendBox_innerHTML (emotional_trend result)) ;;;
let distribution := emotion_distribution result in
forEach (Object_keys distribution)
        (fun e => modify (fun w =>
           set_tags_children (tags_children w ++ [make_tag v distribution e]) w)) ;;;
forEach_from 0 (timeline result)
        (fun item index => modify (fun w =>
           set_breakdown_children
             (breakdown_children w ++ [make_item v item index]) w)) ;;;
newChart timelineChart (lineChartConfig v result) ;;;
newChart pieChart (pieChartConfig v result) ;;;
newChart barChart (barChartConfig v result).

(** The click handler of [analyzeBtn]; [net] is what its request meets.
    The outcome is that of the handler's promise. *)
Definition clickHandler (v : Variant) (net : FetchOutcome) : M unit :=
rawText <- gets inputBox_value ;;
let messages := messages_of rawText in
result <-
  match v with
  | Part000 =>
      tryCatch
        (r <- analyzeChat v net messages ;; ret (Some r))
        (fun err =>
           alert (lit "Error connecting to backend: " ++ err_message err) ;;;
           ret None)
  | FrontendScript =>
      r <- analyzeChat v net messages ;; ret (Some r)
  end ;;
match result with
| None => ret tt
| Some r => render v r
end.

End Pipeline.

Arguments Threw {A} e.
Arguments NetworkFailure {Num} e.
Arguments ParseFails {Num} e.

(** ** Properties of the string built-ins *)

Lemma str_eqb_eq (a b : jsstring) : str_eqb a b = true <-> a = b.
Proof.
  revert b; induction a as [|x a IH]; intros [|y b]; simpl; split;
    try congruence; try reflexivity.
  - intros H. apply andb_true_iff in H as [Hx Hab].
    apply N.eqb_eq in Hx. apply IH in Hab. congruence.
  - intros H. injection H as -> ->.
    apply andb_true_iff; split; [apply N.eqb_refl | now apply IH].
Qed.

Lemma str_eqb_refl (a : jsstring) : str_eqb a a = true.
Proof. now apply str_eqb_eq. Qed.

Lemma trimStart_blank (s : jsstring) : trimStart s = [] <-> blank s = true.
Proof.
  unfold blank; induction s as [|c s IH]; simpl.
  - tauto.
  - destruct (isWhiteSpace c); simpl; [exact IH | split; discriminate].
Qed.

Lemma trimStart_head (s : jsstring) :
  match trimStart s with
  | [] => True
  | c :: _ => isWhiteSpace c = false
  end.
Proof.
  induction s as [|c s IH]; simpl; [exact I|].
  destruct (isWhiteSpace c) eqn:E; [exact IH | exact E].
Qed.

Lemma blank_rev (s : jsstring) : blank (rev s) = blank s.
Proof.
  unfold blank; induction s as [|c s IH]; simpl; [reflexivity|].
  rewrite forallb_app, IH; simpl. rewrite andb_true_r. apply andb_comm.
Qed.

Lemma trim_blank (s : jsstring) : trim s = [] <-> blank s = true.
Proof.
  unfold trim, trimEnd; split.
  - intros H.
    assert (Hr : trimStart (rev (trimStart s)) = []).
    { destruct (trimStart (rev (trimStart s))) as [|c t]; [reflexivity|].
      simpl in H. now destruct (rev t). }
    apply trimStart_blank in Hr. rewrite blank_rev in Hr.
    pose proof (trimStart_head s) as Hh.
    destruct (trimStart s) as [|c t] eqn:E.
    + now apply trimStart_blank.
    + unfold blank in Hr; simpl in Hr. rewrite Hh in Hr. discriminate.
  - intros H. apply trimStart_blank in H. now rewrite H.
Qed.

(** The filter of the handler keeps exactly the lines that are not blank. *)
Lemma keeps_nonblank (m : jsstring) :
  negb (str_eqb (trim m) []) = negb (blank m).
Proof.
  f_equal. destruct (blank m) eqn:B.
  - apply str_eqb_eq. now apply trim_blank.
  - destruct (str_eqb (trim m) []) eqn:E; [|reflexivity].
    apply str_eqb_eq, trim_blank in E. congruence.
Qed.

Lemma messages_of_filter (raw : jsstring) :
  messages_of raw = filter (fun m => negb (blank m)) (split_nl raw).
Proof.
  unfold messages_of. apply filter_ext. intros m. apply keeps_nonblank.
Qed.

Lemma split_nl_nonempty (s : jsstring) : split_nl s <> [].
Proof.
  destruct s as [|c s]; simpl; [discriminate|].
  destruct (c =? LF); [discriminate|]. destruct (split_nl s); discriminate.
Qed.

Lemma join_split_nl (s : jsstring) : join_nl (split_nl s) = s.
Proof.
  unfold join_nl; induction s as [|c s IH]; simpl; [reflexivity|].
  destruct (c =? LF) eqn:E.
  - apply N.eqb_eq in E; subst c.
    pose proof (split_nl_nonempty s) as Hne.
    destruct (split_nl s) as [|p rest]; [contradiction|].
    simpl in *. now rewrite IH.
  - pose proof (split_nl_nonempty s) as Hne.
    destruct (split_nl s) as [|p rest]; [contradiction|].
    destruct rest; simpl in *; now rewrite <- IH.
Qed.

Lemma split_nl_no_newline (s : jsstring) : Forall no_newline (split_nl s).
Proof.
  unfold no_newline; induction s as [|c s IH]; simpl.
  - constructor; [intros []|constructor].
  - destruct (c =? LF) eqn:E.
    + constructor; [intros []|exact IH].
    + apply N.eqb_neq in E.
      destruct (split_nl s) as [|p rest]; constructor; try constructor.
      * intros [H|[]]; congruence.
      * inversion IH; subst. intros [H|H]; [congruence|contradiction].
      * now inversion IH.
Qed.

Lemma split_nl_line (l : jsstring) : no_newline l -> split_nl l = [l].
Proof.
  unfold no_newline; induction l as [|c l IH]; intros Hl; [reflexivity|].
  simpl. destruct (c =? LF) eqn:E.
  - apply N.eqb_eq in E. exfalso; apply Hl; now left.
  - rewrite IH; [reflexivity|]. intros H; apply Hl; now right.
Qed.

Lemma split_nl_cons_line (l rest : jsstring) :
  no_newline l -> split_nl (l ++ LF :: rest) = l :: split_nl rest.
Proof.
  unfold no_newline; induction l as [|c l IH]; intros Hl.
  - reflexivity.
  - change ((c :: l) ++ LF :: rest) with (c :: (l ++ LF :: rest)).
    cbn [split_nl]. destruct (c =? LF) eqn:E.
    + apply N.eqb_eq in E. exfalso; apply Hl; now left.
    + rewrite IH; [reflexivity|]. intros H; apply Hl; now right.
Qed.

(** The pieces are determined by those two facts: [split_nl] is the only
    way to cut a text into newline-free lines. *)
Lemma split_join_nl (ls : list jsstring) :
  ls <> [] -> Forall no_newline ls -> split_nl (join_nl ls) = ls.
Proof.
  unfold join_nl; induction ls as [|l ls IH]; [congruence|].
  intros _ HF. inversion HF as [|? ? Hl Hls]; subst.
  destruct ls as [|l' ls'].
  - now apply split_nl_line.
  - change (join_with [LF] (l :: l' :: ls'))
      with (l ++ LF :: join_with [LF] (l' :: ls')).
    rewrite split_nl_cons_line by assumption.
    f_equal. apply IH; [discriminate | assumption].
Qed.

(** ** Properties of the pipeline *)

Section Properties.

Variable Num : Type.
Variable NumToString : Num -> jsstring.
Variable InheritedToString : jsstring -> jsstring.
Variable ChartCtor :
  CanvasId -> list (CanvasOp Num) -> ChartConfig Num -> option JsError.

(** The [clearRect] calls of [reset] on each canvas. *)
Definition reset_ops (v : Variant) : list (CanvasOp Num) :=
match v with
| Part000 => [ClearRect Num 0 0 400 400]
| FrontendScript => []
end.

(** The page once the handler has filled trend, tags and breakdown, before
    it constructs the charts. *)
Definition page_before_charts (v : Variant) (r : AnalysisResult Num)
           (w : World Num) : World Num :=
{| inputBox_value := inputBox_value w;
   hidden_class := map (fun _ => false) (hidden_class w);
   tags_children :=
     map (make_tag NumToString v (emotion_distribution r))
         (Object_keys (emotion_distribution r));
   breakdown_children := map_from 0 (make_item InheritedToString v) (timeline r);
   trendBox_innerHTML := emotional_trend r;
   timelineChart_ops := timelineChart_ops w ++ reset_ops v;
   pieChart_ops := pieChart_ops w ++ reset_ops v;
   barChart_ops := barChart_ops w ++ reset_ops v;
   alerts := alerts w;
   requests := requests w |}.

(** The three chart constructions that end the handler. *)
Definition draw_charts (v : Variant) (r : AnalysisResult Num) : M Num unit :=
bind (newChart ChartCtor timelineChart (lineChartConfig v r)) (fun _ =>
bind (newChart ChartCtor pieChart (pieChartConfig v r)) (fun _ =>
newChart ChartCtor barChart (barChartConfig v r))).

Lemma forEach_tags (v : Variant) (d : list (jsstring * Num))
      (keys : list jsstring) (w : World Num) :
  forEach keys
    (fun e => modify (fun w =>
       set_tags_children (tags_children w ++ [make_tag NumToString v d e]) w)) w
  = (Returned tt,
     set_tags_children
       (tags_children w ++ map (make_tag NumToString v d) keys) w).
Proof.
  revert w; induction keys as [|e keys IH]; intros w.
  - simpl. unfold ret. destruct w; unfold set_tags_children; simpl.
    now rewrite app_nil_r.
  - simpl. unfold bind at 1. unfold modify at 1. rewrite IH.
    destruct w; unfold set_tags_children; simpl.
    now rewrite <- app_assoc.
Qed.

Lemma forEach_breakdown (v : Variant) (items : list (TimelineEntry Num))
      (index : nat) (w : World Num) :
  forEach_from index items
    (fun item i => modify (fun w =>
       set_breakdown_children
         (breakdown_children w ++ [make_item InheritedToString v item i]) w)) w
  = (Returned tt,
     set_breakdown_children
       (breakdown_children w
        ++ map_from index (make_item InheritedToString v) items) w).
Proof.
  revert index w; induction items as [|x items IH]; intros index w.
  - simpl. unfold ret. destruct w; unfold set_breakdown_children; simpl.
    now rewrite app_nil_r.
  - simpl. unfold bind at 1. unfold modify at 1. rewrite IH.
    destruct w; unfold set_breakdown_children; simpl.
    now rewrite <- app_assoc.
Qed.

(** The handler's rendering part, step by step: the page it leaves before
    the charts does not depend on what the containers held. *)
Lemma render_steps (v : Variant) (r : AnalysisResult Num) (w : World Num) :
  render NumToString InheritedToString ChartCtor v r w
  = draw_charts v r (page_before_charts v r w).
Proof.
  unfold render, draw_charts.
  unfold bind at 1. unfold showSections, modify at 1.
  unfold bind at 1.
  assert (Hreset : forall w0 : World Num,
             reset v w0
             = (Returned tt,
                {| inputBox_value := inputBox_value w0;
                   hidden_class := hidden_class w0;
                   tags_children := [];
                   breakdown_children := [];
                   trendBox_innerHTML := [];
                   timelineChart_ops := timelineChart_ops w0 ++ reset_ops v;
                   pieChart_ops := pieChart_ops w0 ++ reset_ops v;
                   barChart_ops := barChart_ops w0 ++ reset_ops v;
                   alerts := alerts w0;
                   requests := requests w0 |})).
  { intros w0. destruct w0, v; cbv [reset bind modify ret clearRect]; simpl;
      now rewrite ?app_nil_r. }
  rewrite Hreset.
  unfold bind at 1. unfold modify at 1.
  unfold bind at 1. rewrite forEach_tags.
  unfold bind at 1. rewrite forEach_breakdown.
  f_equal.
Qed.

(** Case analysis on every outcome of the chart constructor in the goal. *)
Ltac chart_cases :=
  repeat match goal with
         | |- context [match ?ctor ?c ?h ?cfg with Some _ => _ | None => _ end] =>
             destruct (ctor c h cfg)
         end.

(** Constructing the charts touches nothing but the canvases. *)
Lemma draw_charts_frame (v : Variant) (r : AnalysisResult Num) (w : World Num) :
  let w' := snd (draw_charts v r w) in
  inputBox_value w' = inputBox_value w
  /\ hidden_class w' = hidden_class w
  /\ tags_children w' = tags_children w
  /\ breakdown_children w' = breakdown_children w
  /\ trendBox_innerHTML w' = trendBox_innerHTML w
  /\ alerts w' = alerts w
  /\ requests w' = requests w.
Proof.
  unfold draw_charts, bind, newChart; simpl.
  chart_cases; simpl; repeat split; reflexivity.
Qed.

(** When the three constructors return, each canvas has gained its chart. *)
Lemma draw_charts_returned (v : Variant) (r : AnalysisResult Num) (w : World Num) :
  fst (draw_charts v r w) = Returned tt ->
  let w' := snd (draw_charts v r w) in
  timelineChart_ops w' = timelineChart_ops w ++ [NewChart (lineChartConfig v r)]
  /\ pieChart_ops w' = pieChart_ops w ++ [NewChart (pieChartConfig v r)]
  /\ barChart_ops w' = barChart_ops w ++ [NewChart (barChartConfig v r)].
Proof.
  unfold draw_charts, bind, newChart; simpl.
  chart_cases; simpl; intros H; try discriminate; repeat split; reflexivity.
Qed.

(** [analyzeChat] logs its request and otherwise leaves the page alone; its
    outcome is decided by what the request meets. *)
Definition analyzeChat_outcome (v : Variant) (net : FetchOutcome Num) :
  Outcome (AnalysisResult Num) :=
match net with
| NetworkFailure e => Threw e
| Responds resp =>
    let parsed :=
      match body resp with
      | ParsesTo x => Returned x
      | ParseFails e => Threw e
      end in
    match v with
    | Part000 =>
        if ok resp then parsed
        else Threw (Error (lit "Backend error: " ++ N_to_string (status resp)))
    | FrontendScript => parsed
    end
end.

Lemma analyzeChat_run (v : Variant) (net : FetchOutcome Num)
      (messages : list jsstring) (w : World Num) :
  analyzeChat v net messages w
  = (analyzeChat_outcome v net,
     set_requests (requests w ++ [analyze_request v messages]) w).
Proof.
  unfold analyzeChat, fetch, json, analyzeChat_outcome, bind, modify, ret, throw.
  destruct net as [e|resp]; [reflexivity|].
  destruct v; simpl.
  - destruct (ok resp); simpl; [|reflexivity].
    now destruct (body resp).
  - now destruct (body resp).
Qed.

(** The page with the handler's request logged. *)
Definition logged (v : Variant) (w : World Num) : World Num :=
set_requests
  (requests w ++ [analyze_request v (messages_of (inputBox_value w))]) w.

Lemma clickHandler_run (v : Variant) (net : FetchOutcome Num) (w : World Num) :
  clickHandler NumToString InheritedToString ChartCtor v net w
  = match analyzeChat_outcome v net with
    | Returned r =>
        render NumToString InheritedToString ChartCtor v r (logged v w)
    | Threw e =>
        match v with
        | Part000 =>
            (Returned tt,
             set_alerts
               (alerts w ++ [lit "Error connecting to backend: " ++ err_message e])
               (logged v w))
        | FrontendScript => (Threw e, logged v w)
        end
    end.
Proof.
  unfold clickHandler, logged.
  unfold bind at 1. unfold gets at 1.
  destruct v.
  - unfold bind at 1, tryCatch. unfold bind at 1.
    rewrite analyzeChat_run.
    destruct (analyzeChat_outcome Part000 net); reflexivity.
  - unfold bind at 1. unfold bind at 1.
    rewrite analyzeChat_run.
    destruct (analyzeChat_outcome FrontendScript net); reflexivity.
Qed.

Lemma clickHandler_requests (v : Variant) (net : FetchOutcome Num) (w : World Num) :
  requests (snd (clickHandler NumToString InheritedToString ChartCtor v net w))
  = requests w ++ [analyze_request v (messages_of (inputBox_value w))].
Proof.
  rewrite clickHandler_run.
  destruct (analyzeChat_outcome v net) as [r|e].
  - rewrite render_steps.
    destruct (draw_charts_frame v r (page_before_charts v r (logged v w)))
      as (_ & _ & _ & _ & _ & _ & ->).
    reflexivity.
  - destruct v; reflexivity.
Qed.

(** *** The message list *)

(** C1. Whatever the request meets, the handler sends one request whose
    body is the serialized message list of the input box; that list is the
    input cut at line feeds (the one cutting into newline-free pieces that
    join back to the input) with the whitespace-only lines filtered out, in
    order; for the empty input it is empty and the body's [messages] is the
    empty array. *)
Theorem C1_message_list (v : Variant) (net : FetchOutcome Num) (w : World Num) :
  requests (snd (clickHandler NumToString InheritedToString ChartCtor v net w))
  = requests w ++ [analyze_request v (messages_of (inputBox_value w))]
  /\ req_body (analyze_request v (messages_of (inputBox_value w)))
     = JSON_stringify_payload (messages_of (inputBox_value w))
  /\ messages_of (inputBox_value w)
     = filter (fun m => negb (blank m)) (split_nl (inputBox_value w))
  /\ join_nl (split_nl (inputBox_value w)) = inputBox_value w
  /\ Forall no_newline (split_nl (inputBox_value w))
  /\ (forall ls, ls <> [] -> Forall no_newline ls ->
                 join_nl ls = inputBox_value w ->
                 split_nl (inputBox_value w) = ls)
  /\ messages_of [] = []
  /\ JSON_stringify_payload (messages_of [])
     = lit "{" ++ [DQUOTE] ++ lit "messages" ++ [DQUOTE] ++ lit ":[]}".
Proof.
  split; [apply clickHandler_requests|].
  split; [reflexivity|].
  split; [apply messages_of_filter|].
  split; [apply join_split_nl|].
  split; [apply split_nl_no_newline|].
  split; [|split; reflexivity].
  intros ls Hne HF <-. now apply split_join_nl.
Qed.

(** C9. A line is kept if and only if it is a piece of the input that is
    not blank, and it is kept as it stands: trimming only decides; the line
    of two spaces, [hi], two spaces reaches the payload with its spaces,
    although its trimmed form is [hi]. *)
Theorem C9_lines_kept_verbatim (raw m : jsstring) :
  (In m (messages_of raw) <-> In m (split_nl raw) /\ trim m <> [])
  /\ messages_of (lit "  hi  ") = [lit "  hi  "]
  /\ trim (lit "  hi  ") = lit "hi"
  /\ JSON_stringify_payload (messages_of (lit "  hi  "))
     = lit "{" ++ [DQUOTE] ++ lit "messages" ++ [DQUOTE] ++ lit ":["
       ++ [DQUOTE] ++ lit "  hi  " ++ [DQUOTE] ++ lit "]}".
Proof.
  split; [|repeat split; reflexivity].
  unfold messages_of. rewrite filter_In.
  split; intros [Hin Hk]; (split; [exact Hin|]).
  - intros E. rewrite E in Hk. discriminate.
  - destruct (str_eqb (trim m) []) eqn:E; [|reflexivity].
    apply str_eqb_eq in E. contradiction.
Qed.

(** *** Errors *)

(** C3, amended. When the analysis call throws, no tag, breakdown, trend or
    canvas is touched and no hidden flag changes, in both variants; in
    [part_000] the handler alerts with the error's message and returns, in
    [Frontend/script.js] it shows nothing and its promise rejects with the
    error. *)
Theorem C3_throw_leaves_page (v : Variant) (net : FetchOutcome Num)
        (w : World Num) (e : JsError) :
  fst (analyzeChat v net (messages_of (inputBox_value w)) w) = Threw e ->
  let out := clickHandler NumToString InheritedToString ChartCtor v net w in
  tags_children (snd out) = tags_children w
  /\ breakdown_children (snd out) = breakdown_children w
  /\ trendBox_innerHTML (snd out) = trendBox_innerHTML w
  /\ timelineChart_ops (snd out) = timelineChart_ops w
  /\ pieChart_ops (snd out) = pieChart_ops w
  /\ barChart_ops (snd out) = barChart_ops w
  /\ hidden_class (snd out) = hidden_class w
  /\ match v with
     | Part000 =>
         fst out = Returned tt
         /\ alerts (snd out)
            = alerts w ++ [lit "Error connecting to backend: " ++ err_message e]
     | FrontendScript =>
         fst out = Threw e /\ alerts (snd out) = alerts w
     end.
Proof.
  rewrite analyzeChat_run; simpl. intros H.
  rewrite clickHandler_run, H.
  destruct v; simpl; repeat split; reflexivity.
Qed.

(** C4, amended. In [part_000], [analyzeChat] throws exactly when the fetch
    fails, the status is not a success, or the body of a success does not
    parse; a status that is not a success gives the error whose message is
    [Backend error: ] followed by the status. In [Frontend/script.js] the
    status is not looked at: the outcome is that of parsing the body. *)
Theorem C4_analyzeChat_throws (net : FetchOutcome Num)
        (messages : list jsstring) (w : World Num) :
  ((exists e, fst (analyzeChat Part000 net messages w) = Threw e)
   <-> ((exists e, net = NetworkFailure e)
        \/ (exists resp, net = Responds resp /\ ok resp = false)
        \/ (exists resp e, net = Responds resp /\ ok resp = true
                           /\ body resp = ParseFails e)))
  /\ (forall resp, net = Responds resp -> ok resp = false ->
        fst (analyzeChat Part000 net messages w)
        = Threw (Error (lit "Backend error: " ++ N_to_string (status resp))))
  /\ (forall resp, net = Responds resp ->
        fst (analyzeChat FrontendScript net messages w)
        = match body resp with
          | ParsesTo x => Returned x
          | ParseFails e => Threw e
          end).
Proof.
  rewrite !analyzeChat_run; simpl. repeat split.
  - intros [e H]. destruct net as [e'|resp]; [left; eauto|right].
    simpl in H. destruct (ok resp) eqn:Hok; [right|left; eauto].
    destruct (body resp) as [x|e'] eqn:Hb; [discriminate|eauto].
  - intros [[e ->]|[(resp & -> & Hok)|(resp & e & -> & Hok & Hb)]]; simpl.
    + eauto.
    + rewrite Hok. eauto.
    + rewrite Hok, Hb. eauto.
  - intros resp -> Hok. simpl. now rewrite Hok.
  - intros resp ->. reflexivity.
Qed.

(** *** Re-rendering *)

(** A rendering that completes has appended, on each canvas, the reset's
    operations and one chart. *)
Lemma render_appends_charts (v : Variant) (r : AnalysisResult Num) (w : World Num) :
  fst (render NumToString InheritedToString ChartCtor v r w) = Returned tt ->
  let w' := snd (render NumToString InheritedToString ChartCtor v r w) in
  timelineChart_ops w'
  = timelineChart_ops w ++ reset_ops v ++ [NewChart (lineChartConfig v r)]
  /\ pieChart_ops w'
     = pieChart_ops w ++ reset_ops v ++ [NewChart (pieChartConfig v r)]
  /\ barChart_ops w'
     = barChart_ops w ++ reset_ops v ++ [NewChart (barChartConfig v r)].
Proof.
  rewrite render_steps. intros H.
  destruct (draw_charts_returned _ _ _ H) as (Hl & Hp & Hb).
  cbv zeta in *. rewrite Hl, Hp, Hb. simpl.
  now rewrite <- !app_assoc.
Qed.

(** C5, amended. The reset empties the tag container, the breakdown
    container and the trend text; on the canvases it issues
    [clearRect(0, 0, 400, 400)] in [part_000] and nothing in
    [Frontend/script.js]. In both variants rendering a result twice leaves
    the tags, the breakdown, the trend text and the hidden flags of
    rendering it once: one tag per key and one item per timeline entry.
    No chart is destroyed: a second rendering that completes has appended
    the reset's operations and a further chart to each canvas. *)
Theorem C5_render_twice (v : Variant) (r : AnalysisResult Num) (w : World Num) :
  let cleared := snd (reset v w) in
  let once := snd (render NumToString InheritedToString ChartCtor v r w) in
  let twice := snd (render NumToString InheritedToString ChartCtor v r once) in
  (tags_children cleared = []
   /\ breakdown_children cleared = []
   /\ trendBox_innerHTML cleared = []
   /\ timelineChart_ops cleared = timelineChart_ops w ++ reset_ops v
   /\ pieChart_ops cleared = pieChart_ops w ++ reset_ops v
   /\ barChart_ops cleared = barChart_ops w ++ reset_ops v)
  /\ tags_children twice = tags_children once
  /\ breakdown_children twice = breakdown_children once
  /\ trendBox_innerHTML twice = trendBox_innerHTML once
  /\ hidden_class twice = hidden_class once
  /\ List.length (tags_children twice)
     = List.length (Object_keys (emotion_distribution r))
  /\ List.length (breakdown_children twice) = List.length (timeline r)
  /\ (fst (render NumToString InheritedToString ChartCtor v r once) = Returned tt ->
      timelineChart_ops twice
      = timelineChart_ops once ++ reset_ops v ++ [NewChart (lineChartConfig v r)]
      /\ pieChart_ops twice
         = pieChart_ops once ++ reset_ops v ++ [NewChart (pieChartConfig v r)]
      /\ barChart_ops twice
         = barChart_ops once ++ reset_ops v ++ [NewChart (barChartConfig v r)]).
Proof.
  cbv zeta. split.
  { destruct w, v; cbv [reset bind modify ret clearRect]; simpl;
      rewrite ?app_nil_r; repeat split; reflexivity. }
  assert (Hcharts := render_appends_charts v r
            (snd (render NumToString InheritedToString ChartCtor v r w))).
  cbv zeta in Hcharts. revert Hcharts.
  rewrite !render_steps.
  set (w1 := page_before_charts v r w).
  destruct (draw_charts_frame v r w1) as (_ & Hh1 & Ht1 & Hb1 & Htr1 & _ & _).
  set (w2 := page_before_charts v r (snd (draw_charts v r w1))).
  destruct (draw_charts_frame v r w2) as (_ & Hh2 & Ht2 & Hb2 & Htr2 & _ & _).
  cbv zeta in *. intros Hcharts.
  rewrite Ht2, Hb2, Htr2, Hh2, Ht1, Hb1, Htr1, Hh1.
  subst w1 w2; simpl. rewrite Hh1; simpl.
  repeat split.
  - rewrite map_map. apply map_ext. reflexivity.
  - unfold Object_keys. now rewrite !length_map.
  - generalize 0%nat. induction (timeline r) as [|x l IH]; intros n; simpl;
      [reflexivity | now rewrite IH].
  - now apply Hcharts.
  - now apply Hcharts.
  - now apply Hcharts.
Qed.

(** *** What a run that gets a result renders *)

Lemma clickHandler_returned (v : Variant) (net : FetchOutcome Num)
      (w : World Num) (r : AnalysisResult Num) :
  fst (analyzeChat v net (messages_of (inputBox_value w)) w) = Returned r ->
  clickHandler NumToString InheritedToString ChartCtor v net w
  = draw_charts v r (page_before_charts v r (logged v w)).
Proof.
  rewrite analyzeChat_run; simpl. intros H.
  now rewrite clickHandler_run, H, render_steps.
Qed.

Lemma map_from_seq {A B} (g : nat -> B) (l : list A) (k : nat) :
  map_from k (fun _ i => g i) l = map g (seq k (List.length l)).
Proof.
  revert k; induction l as [|x l IH]; intros k; simpl; [reflexivity|].
  now rewrite IH.
Qed.

Lemma nth_error_map_from {A B} (f : A -> nat -> B) (l : list A) (k i : nat) :
  nth_error (map_from k f l) i
  = option_map (fun x => f x (k + i)%nat) (nth_error l i).
Proof.
  revert k i; induction l as [|x l IH]; intros k [|i]; simpl;
    try reflexivity.
  - now rewrite Nat.add_0_r.
  - rewrite IH. now rewrite Nat.add_succ_r.
Qed.

(** C7. In a run that gets result [r] and completes, the chart built on
    [timelineChart] is a line chart with exactly one dataset, labelled
    [Intensity], whose data are the scores of the timeline in order and
    whose labels are [Message 1], [Message 2], ... (as many as timeline
    entries); its y axis runs from 0 to 1. *)
Theorem C7_line_chart (v : Variant) (net : FetchOutcome Num) (w : World Num)
        (r : AnalysisResult Num) :
  fst (analyzeChat v net (messages_of (inputBox_value w)) w) = Returned r ->
  fst (clickHandler NumToString InheritedToString ChartCtor v net w)
  = Returned tt ->
  exists cfg ds,
    timelineChart_ops
      (snd (clickHandler NumToString InheritedToString ChartCtor v net w))
    = timelineChart_ops w ++ reset_ops v ++ [NewChart cfg]
    /\ chart_type cfg = lit "line"
    /\ chart_datasets cfg = [ds]
    /\ ds_label ds = Some (lit "Intensity")
    /\ ds_data ds = map (@score Num) (timeline r)
    /\ chart_labels cfg
       = map (fun n => lit "Message " ++ nat_to_string n)
             (seq 1 (List.length (timeline r)))
    /\ List.length (chart_labels cfg) = List.length (timeline r)
    /\ List.length (ds_data ds) = List.length (timeline r)
    /\ opt_scales_y (chart_options cfg) = Some (YMinMax 0 1).
Proof.
  intros Hr Hdone. rewrite (@clickHandler_returned v net w r Hr) in *.
  destruct (draw_charts_returned _ _ _ Hdone) as (Hl & _ & _).
  cbv zeta in Hl.
  assert (Hlabels :
            chart_labels (lineChartConfig v r)
            = map (fun n => lit "Message " ++ nat_to_string n)
                  (seq 1 (List.length (timeline r)))).
  { unfold lineChartConfig; simpl.
    rewrite (map_from_seq (fun i => lit "Message " ++ nat_to_string (i + 1))).
    rewrite <- seq_shift, map_map. apply map_ext.
    intros n. now rewrite Nat.add_1_r. }
  eexists; eexists; split; [rewrite Hl; simpl; now rewrite <- app_assoc|].
  repeat split; try reflexivity.
  - exact Hlabels.
  - rewrite Hlabels. now rewrite length_map, length_seq.
  - simpl. now rewrite length_map.
Qed.

(** C8. In a run that gets result [r] and completes, the pie chart and the
    bar chart carry the same labels (the keys of the distribution in key
    order), the same data (the counts in that order) and the same colors
    (the table lookup of each key, in that order); the bar chart's y axis
    begins at zero. *)
Theorem C8_pie_and_bar (v : Variant) (net : FetchOutcome Num) (w : World Num)
        (r : AnalysisResult Num) :
  fst (analyzeChat v net (messages_of (inputBox_value w)) w) = Returned r ->
  fst (clickHandler NumToString InheritedToString ChartCtor v net w)
  = Returned tt ->
  exists pie bar pie_ds bar_ds,
    pieChart_ops
      (snd (clickHandler NumToString InheritedToString ChartCtor v net w))
    = pieChart_ops w ++ reset_ops v ++ [NewChart pie]
    /\ barChart_ops
         (snd (clickHandler NumToString InheritedToString ChartCtor v net w))
       = barChart_ops w ++ reset_ops v ++ [NewChart bar]
    /\ chart_type pie = lit "pie" /\ chart_type bar = lit "bar"
    /\ chart_datasets pie = [pie_ds] /\ chart_datasets bar = [bar_ds]
    /\ chart_labels pie = Object_keys (emotion_distribution r)
    /\ chart_labels bar = chart_labels pie
    /\ ds_data pie_ds = Object_values (emotion_distribution r)
    /\ ds_data bar_ds = ds_data pie_ds
    /\ ds_backgroundColor pie_ds
       = Some (map (emotionColors_get v) (Object_keys (emotion_distribution r)))
    /\ ds_backgroundColor bar_ds = ds_backgroundColor pie_ds
    /\ opt_scales_y (chart_options bar) = Some (YBeginAtZero true).
Proof.
  intros Hr Hdone. rewrite (@clickHandler_returned v net w r Hr) in *.
  destruct (draw_charts_returned _ _ _ Hdone) as (_ & Hp & Hb).
  cbv zeta in Hp, Hb.
  do 4 eexists.
  split; [rewrite Hp; simpl; now rewrite <- app_assoc|].
  split; [rewrite Hb; simpl; now rewrite <- app_assoc|].
  repeat split; reflexivity.
Qed.

(** C10. In a run that gets result [r], the trend text is assigned to
    [innerHTML] as received, and the i-th breakdown item is a [div] of
    class [msgItem] whose [innerHTML] is the variant's template, written
    out below, around the 1-based index, the text, the resolved color and
    the emotion of the i-th timeline entry: text, emotion and trend reach
    the markup code unit by code unit, with no escaping, so a [<] in them
    opens a tag. Nothing else of the response enters an item. *)
Theorem C10_breakdown_markup (v : Variant) (net : FetchOutcome Num)
        (w : World Num) (r : AnalysisResult Num) :
  fst (analyzeChat v net (messages_of (inputBox_value w)) w) = Returned r ->
  let w' := snd (clickHandler NumToString InheritedToString ChartCtor v net w) in
  trendBox_innerHTML w' = emotional_trend r
  /\ List.length (breakdown_children w') = List.length (timeline r)
  /\ (forall i,
        nth_error (breakdown_children w') i
        = option_map
            (fun item =>
               {| item_className := lit "msgItem";
                  item_innerHTML :=
                    [LF] ++ lit "      <b>" ++ nat_to_string (i + 1) ++ lit ". "
                    ++ [DQUOTE] ++ text item ++ [DQUOTE] ++ lit "</b><br>" ++ [LF]
                    ++ match v with
                       | Part000 => lit "      Emotion: <span class="
                       | FrontendScript =>
                           lit "      Emotion: " ++ [LF] ++ lit "      <span class="
                       end
                    ++ [DQUOTE] ++ lit "emotionLabel" ++ [DQUOTE]
                    ++ lit " style=" ++ [DQUOTE] ++ lit "background:"
                    ++ match resolveColor v (emotion item) with
                       | VString color => color
                       | VInherited key => InheritedToString key
                       | VUndefined => lit "undefined"
                       end
                    ++ [DQUOTE] ++ lit ">" ++ emotion item ++ lit "</span>"
                    ++ [LF] ++ lit "    " |})
            (nth_error (timeline r) i)).
Proof.
  intros Hr. cbv zeta. rewrite (@clickHandler_returned v net w r Hr).
  destruct (draw_charts_frame v r (page_before_charts v r (logged v w)))
    as (_ & _ & _ & -> & -> & _ & _).
  cbn [page_before_charts breakdown_children trendBox_innerHTML].
  split; [reflexivity|]. split.
  - generalize 0%nat. induction (timeline r) as [|x l IH]; intros n; simpl;
      [reflexivity | now rewrite IH].
  - intros i. rewrite nth_error_map_from.
    destruct (nth_error (timeline r) i) as [item|]; [|reflexivity].
    cbn [option_map]. f_equal. unfold make_item. f_equal.
    unfold breakdown_markup, ToString.
    destruct v; destruct (resolveColor _ (emotion item)); reflexivity.
Qed.

(** *** Tags and colors *)

Lemma own_get_In {A} (o : list (jsstring * A)) (k : jsstring) (x : A) :
  own_get o k = Some x -> In x (map snd o).
Proof.
  induction o as [|[k' y] o IH]; simpl; [discriminate|].
  destruct (str_eqb k k'); [intros [= ->]; now left | right; auto].
Qed.

Lemma own_get_NoDup {A} (o : list (jsstring * A)) (k : jsstring) (x : A) :
  NoDup (Object_keys o) -> In (k, x) o -> own_get o k = Some x.
Proof.
  unfold Object_keys; induction o as [|[k' y] o IH]; simpl; [intros _ []|].
  intros Hnd [Heq|Hin].
  - injection Heq as -> ->. now rewrite str_eqb_refl.
  - inversion Hnd as [|? ? Hk' Hnd']; subst.
    destruct (str_eqb k k') eqn:E; [|now apply IH].
    apply str_eqb_eq in E; subst k'. exfalso. apply Hk'.
    change k with (fst (k, x)). now apply in_map.
Qed.

Lemma table_colors_truthy (v : Variant) :
  forallb (fun c => negb (str_eqb c [])) (map snd (emotionColors v)) = true.
Proof. destruct v; reflexivity. Qed.

(** How [emotionColors[e] || "#888"] resolves: the table's entry for a key
    of the table; the fallback for a label that neither the table nor
    [Object.prototype] has; the inherited member otherwise. *)
Theorem resolveColor_cases (v : Variant) (e : jsstring) :
  (forall c, own_get (emotionColors v) e = Some c -> resolveColor v e = VString c)
  /\ (own_get (emotionColors v) e = None ->
      existsb (str_eqb e) ObjectPrototype_keys = false ->
      resolveColor v e = fallbackColor)
  /\ (own_get (emotionColors v) e = None ->
      existsb (str_eqb e) ObjectPrototype_keys = true ->
      resolveColor v e = VInherited e).
Proof.
  unfold resolveColor, js_or, emotionColors_get. repeat split.
  - intros c Hc. rewrite Hc. simpl.
    pose proof (table_colors_truthy v) as Ht.
    rewrite forallb_forall in Ht. now rewrite (Ht c (own_get_In _ _ Hc)).
  - intros -> ->. reflexivity.
  - intros -> ->. reflexivity.
Qed.

(** In a run that gets result [r], whatever the charts then do, the tag
    container holds one tag per property of the distribution, in key
    order, with the text [<emotion> (<count>)] and the resolved color on
    border and text. *)
Theorem tags_one_per_key (v : Variant) (net : FetchOutcome Num)
        (w : World Num) (r : AnalysisResult Num) :
  fst (analyzeChat v net (messages_of (inputBox_value w)) w) = Returned r ->
  NoDup (Object_keys (emotion_distribution r)) ->
  tags_children
    (snd (clickHandler NumToString InheritedToString ChartCtor v net w))
  = map (fun p =>
           {| tag_className := lit "tag";
              tag_borderColor := resolveColor v (fst p);
              tag_color := resolveColor v (fst p);
              tag_textContent :=
                fst p ++ lit " (" ++ NumToString (snd p) ++ lit ")" |})
        (emotion_distribution r).
Proof.
  intros Hr Hnd. rewrite (@clickHandler_returned v net w r Hr).
  destruct (draw_charts_frame v r (page_before_charts v r (logged v w)))
    as (_ & _ & -> & _).
  simpl. unfold Object_keys. rewrite map_map. apply map_ext_in.
  intros [k n] Hin. unfold make_tag, count_text; simpl.
  now rewrite (own_get_NoDup _ _ _ Hnd Hin).
Qed.

End Properties.

(** ** Sample runs *)

(** Numbers of the samples, by their decimal text. *)
Definition SampleNum := string.
Definition sample_NumToString (n : SampleNum) : jsstring := lit n.
Definition sample_InheritedToString (k : jsstring) : jsstring :=
  if str_eqb k (lit "constructor") then lit "function Object() { [native code] }"
  else if str_eqb k (lit "__proto__") then lit "[object Object]"
  else lit "function " ++ k ++ lit "() { [native code] }".

(** A Chart.js whose constructor always returns. *)
Definition accepting_Chart :
  CanvasId -> list (CanvasOp SampleNum) -> ChartConfig SampleNum -> option JsError :=
  fun _ _ _ => None.

Definition sample_page : World SampleNum :=
  {| inputBox_value := lit "I am happy" ++ [LF] ++ lit "I am sad";
     hidden_class := [true; true; true];
     tags_children := [];
     breakdown_children := [];
     trendBox_innerHTML := [];
     timelineChart_ops := [];
     pieChart_ops := [];
     barChart_ops := [];
     alerts := [];
     requests := [] |}.

(** The response of the specification's example. *)
Definition sample_result : AnalysisResult SampleNum :=
  {| emotional_trend := lit "improving";
     emotion_distribution := [(lit "joy", "1"%string); (lit "sadness", "1"%string)];
     timeline :=
       [ {| text := lit "I am happy"; emotion := lit "joy"; score := "0.9"%string |};
         {| text := lit "I am sad"; emotion := lit "sadness"; score := "0.3"%string |} ] |}.

Definition sample_success : FetchOutcome SampleNum :=
  Responds {| status := 200; body := ParsesTo sample_result |}.

Definition fetch_error : JsError :=
  {| err_name := lit "TypeError"; err_message := lit "Failed to fetch" |}.

Definition sample_failure : FetchOutcome SampleNum := NetworkFailure fetch_error.

Definition syntax_error : JsError :=
  {| err_name := lit "SyntaxError"; err_message := lit "Unexpected end of JSON input" |}.

(** A success whose body is not JSON. *)
Definition unparsable_success : Response SampleNum :=
  {| status := 200; body := ParseFails syntax_error |}.

Definition server_error : Response SampleNum :=
  {| status := 500; body := ParseFails syntax_error |}.

(** A response with a label the color table does not have. *)
Definition bored_result : AnalysisResult SampleNum :=
  {| emotional_trend := lit "flat";
     emotion_distribution := [(lit "bored", "1"%string)];
     timeline :=
       [ {| text := lit "meh"; emotion := lit "bored"; score := "0.5"%string |} ] |}.

(** A response whose label is a key of [Object.prototype]. *)
Definition constructor_result : AnalysisResult SampleNum :=
  {| emotional_trend := lit "flat";
     emotion_distribution := [(lit "constructor", "1"%string)];
     timeline :=
       [ {| text := lit "meh"; emotion := lit "constructor"; score := "0.5"%string |} ] |}.

(** A response with markup in its strings. *)
Definition markup_result : AnalysisResult SampleNum :=
  {| emotional_trend := lit "<b>up</b>";
     emotion_distribution := [(lit "<u>joy</u>", "1"%string)];
     timeline :=
       [ {| text := lit "<i>x</i>"; emotion := lit "<u>joy</u>";
            score := "0.9"%string |} ] |}.

Definition respond_with (r : AnalysisResult SampleNum) : FetchOutcome SampleNum :=
  Responds {| status := 200; body := ParsesTo r |}.

Definition sample_run (v : Variant) (net : FetchOutcome SampleNum)
           (w : World SampleNum) : Outcome unit * World SampleNum :=
  clickHandler sample_NumToString sample_InheritedToString accepting_Chart v net w.

(** ** The properties at the sample runs *)

(** C1 at the specification's example: the request that leaves the page
    and the two messages it carries. *)
Lemma C1_message_list_witness :
  messages_of (inputBox_value sample_page) = [lit "I am happy"; lit "I am sad"]
  /\ map req_body (requests (snd (sample_run Part000 sample_success sample_page)))
     = [ lit "{" ++ [DQUOTE] ++ lit "messages" ++ [DQUOTE] ++ lit ":["
         ++ [DQUOTE] ++ lit "I am happy" ++ [DQUOTE] ++ lit ","
         ++ [DQUOTE] ++ lit "I am sad" ++ [DQUOTE] ++ lit "]}" ]
  /\ split_nl (inputBox_value sample_page) = [lit "I am happy"; lit "I am sad"].
Proof.
  destruct (@C1_message_list SampleNum sample_NumToString
              sample_InheritedToString accepting_Chart
              Part000 sample_success sample_page)
    as (Hreq & _ & Hmsgs & Hjoin & _ & Hcut & _).
  split; [rewrite Hmsgs; reflexivity|].
  split; [unfold sample_run; rewrite Hreq; reflexivity|].
  apply Hcut; [discriminate | | reflexivity].
  repeat constructor; unfold no_newline; simpl; intuition discriminate.
Defined.

(** C3 at a failed fetch in [part_000]: the alert, and the flags as they
    were. *)
Lemma C3_throw_leaves_page_witness :
  fst (analyzeChat Part000 sample_failure
         (messages_of (inputBox_value sample_page)) sample_page)
  = Threw fetch_error
  /\ alerts (snd (sample_run Part000 sample_failure sample_page))
     = [lit "Error connecting to backend: Failed to fetch"]
  /\ hidden_class (snd (sample_run Part000 sample_failure sample_page))
     = [true; true; true].
Proof.
  assert (H : fst (analyzeChat Part000 sample_failure
                     (messages_of (inputBox_value sample_page)) sample_page)
              = Threw fetch_error) by reflexivity.
  split; [exact H|].
  destruct (@C3_throw_leaves_page SampleNum sample_NumToString
              sample_InheritedToString accepting_Chart
              Part000 sample_failure sample_page fetch_error H)
    as (_ & _ & _ & _ & _ & _ & Hh & _ & Ha).
  split; [exact Ha | exact Hh].
Defined.

(** C3 as the specification words it fails in [Frontend/script.js]: the
    analysis call throws, the handler's promise rejects, and nothing is
    shown to the user. *)
Lemma C3_counterexample :
  fst (analyzeChat FrontendScript sample_failure
         (messages_of (inputBox_value sample_page)) sample_page)
  = Threw fetch_error
  /\ fst (sample_run FrontendScript sample_failure sample_page)
     = Threw fetch_error
  /\ alerts (snd (sample_run FrontendScript sample_failure sample_page)) = [].
Proof. repeat split; reflexivity. Qed.

(** C4 as the specification words it fails on a success whose body does
    not parse: the status is a success and the fetch did not fail, yet
    [analyzeChat] of [part_000] throws. *)
Lemma C4_counterexample :
  ok unparsable_success = true
  /\ fst (analyzeChat Part000 (Responds unparsable_success) [] sample_page)
     = Threw syntax_error.
Proof. split; reflexivity. Qed.

(** C4 at a status 500: the backend error carries the status, and the
    other variant goes on to parse the body. *)
Lemma C4_analyzeChat_throws_witness :
  ok server_error = false
  /\ fst (analyzeChat Part000 (Responds server_error) [] sample_page)
     = Threw (Error (lit "Backend error: 500"))
  /\ fst (analyzeChat FrontendScript (Responds server_error) [] sample_page)
     = Threw syntax_error.
Proof.
  destruct (@C4_analyzeChat_throws SampleNum (Responds server_error) []
              sample_page) as (_ & Hstatus & Hparse).
  split; [reflexivity|]. split.
  - exact (Hstatus server_error eq_refl eq_refl).
  - exact (Hparse server_error eq_refl).
Defined.

(** C5 as the specification words it fails in [Frontend/script.js]: the
    reset leaves a canvas that carries a chart as it is, and a second run
    constructs a second chart on it. *)
Lemma C5_counterexample :
  let drawn := snd (sample_run FrontendScript sample_success sample_page) in
  timelineChart_ops drawn
  = [NewChart (lineChartConfig FrontendScript sample_result)]
  /\ timelineChart_ops (snd (reset FrontendScript drawn))
     = [NewChart (lineChartConfig FrontendScript sample_result)]
  /\ timelineChart_ops (snd (sample_run FrontendScript sample_success drawn))
     = [NewChart (lineChartConfig FrontendScript sample_result);
        NewChart (lineChartConfig FrontendScript sample_result)].
Proof. repeat split; reflexivity. Qed.

(** C5 at the specification's example, with a Chart.js that accepts a
    canvas again: the second run's tags and canvas. *)
Lemma C5_render_twice_witness :
  let render_sample :=
    render sample_NumToString sample_InheritedToString accepting_Chart
           Part000 sample_result in
  map tag_textContent (tags_children (snd (render_sample (snd (render_sample sample_page)))))
  = [lit "joy (1)"; lit "sadness (1)"]
  /\ timelineChart_ops (snd (render_sample (snd (render_sample sample_page))))
     = [ ClearRect SampleNum 0 0 400 400;
         NewChart (lineChartConfig Part000 sample_result);
         ClearRect SampleNum 0 0 400 400;
         NewChart (lineChartConfig Part000 sample_result) ].
Proof.
  cbv zeta.
  destruct (@C5_render_twice SampleNum sample_NumToString
              sample_InheritedToString accepting_Chart
              Part000 sample_result sample_page)
    as (_ & Ht & _ & _ & _ & _ & _ & Hc).
  cbv zeta in Ht, Hc. split.
  - rewrite Ht. reflexivity.
  - destruct (Hc eq_refl) as (Hl & _). rewrite Hl. reflexivity.
Defined.

(** C7 at the specification's example. *)
Lemma C7_line_chart_witness :
  exists cfg ds,
    timelineChart_ops (snd (sample_run Part000 sample_success sample_page))
    = [ClearRect SampleNum 0 0 400 400; NewChart cfg]
    /\ chart_datasets cfg = [ds]
    /\ ds_label ds = Some (lit "Intensity")
    /\ ds_data ds = ["0.9"; "0.3"]%string
    /\ chart_labels cfg = [lit "Message 1"; lit "Message 2"]
    /\ opt_scales_y (chart_options cfg) = Some (YMinMax 0 1).
Proof.
  destruct (@C7_line_chart SampleNum sample_NumToString
              sample_InheritedToString accepting_Chart
              Part000 sample_success sample_page sample_result
              eq_refl eq_refl)
    as (cfg & ds & Hops & _ & Hds & Hl & Hd & Hlab & _ & _ & Hy).
  exists cfg, ds. repeat split; assumption.
Defined.

(** C8 at the specification's example. *)
Lemma C8_pie_and_bar_witness :
  exists pie bar pie_ds bar_ds,
    pieChart_ops (snd (sample_run Part000 sample_success sample_page))
    = [ClearRect SampleNum 0 0 400 400; NewChart pie]
    /\ barChart_ops (snd (sample_run Part000 sample_success sample_page))
       = [ClearRect SampleNum 0 0 400 400; NewChart bar]
    /\ chart_datasets pie = [pie_ds] /\ chart_datasets bar = [bar_ds]
    /\ chart_labels pie = [lit "joy"; lit "sadness"]
    /\ chart_labels bar = [lit "joy"; lit "sadness"]
    /\ ds_data pie_ds = ["1"; "1"]%string
    /\ ds_data bar_ds = ["1"; "1"]%string
    /\ ds_backgroundColor pie_ds
       = Some [VString (lit "#FFD700"); VString (lit "#1E90FF")]
    /\ ds_backgroundColor bar_ds
       = Some [VString (lit "#FFD700"); VString (lit "#1E90FF")].
Proof.
  destruct (@C8_pie_and_bar SampleNum sample_NumToString
              sample_InheritedToString accepting_Chart
              Part000 sample_success sample_page sample_result
              eq_refl eq_refl)
    as (pie & bar & pie_ds & bar_ds & Hp & Hb & _ & _ & Hpd & Hbd & Hpl & Hbl
        & Hpv & Hbv & Hpc & Hbc & _).
  exists pie, bar, pie_ds, bar_ds.
  rewrite Hbl, Hbv, Hbc.
  repeat split; assumption.
Defined.

(** C10 at a response with markup in its strings: the trend and the text
    arrive in [innerHTML] with their angle brackets. *)
Lemma C10_breakdown_markup_witness :
  trendBox_innerHTML
    (snd (sample_run Part000 (respond_with markup_result) sample_page))
  = lit "<b>up</b>"
  /\ nth_error
       (breakdown_children
          (snd (sample_run Part000 (respond_with markup_result) sample_page)))
       0
     = Some {| item_className := lit "msgItem";
               item_innerHTML :=
                 [LF] ++ lit "      <b>1. " ++ [DQUOTE] ++ lit "<i>x</i>"
                 ++ [DQUOTE] ++ lit "</b><br>" ++ [LF]
                 ++ lit "      Emotion: <span class=" ++ [DQUOTE]
                 ++ lit "emotionLabel" ++ [DQUOTE] ++ lit " style=" ++ [DQUOTE]
                 ++ lit "background:#888" ++ [DQUOTE]
                 ++ lit "><u>joy</u></span>" ++ [LF] ++ lit "    " |}.
Proof.
  destruct (@C10_breakdown_markup SampleNum sample_NumToString
              sample_InheritedToString accepting_Chart
              Part000 (respond_with markup_result) sample_page markup_result
              eq_refl)
    as (Ht & _ & Hi).
  split; [exact Ht | exact (Hi 0%nat)].
Defined.

(** C2, at a label the table does not have ([bored]), in either variant:
    the run completes; the tag and the breakdown label take the fallback
    [#888]; the line chart's point colors and the pie and bar charts'
    background colors are [undefined], since those three lookups carry no
    fallback. *)
Theorem C2_unknown_label_colors (v : Variant) :
  emotionColors_get v (lit "bored") = VUndefined
  /\ fst (sample_run v (respond_with bored_result) sample_page) = Returned tt
  /\ map tag_color
         (tags_children (snd (sample_run v (respond_with bored_result) sample_page)))
     = [fallbackColor]
  /\ map item_innerHTML
         (breakdown_children
            (snd (sample_run v (respond_with bored_result) sample_page)))
     = [breakdown_markup v (lit "1") (lit "meh") (lit "bored") (lit "#888")]
  /\ timelineChart_ops
       (snd (sample_run v (respond_with bored_result) sample_page))
     = reset_ops SampleNum v ++ [NewChart (lineChartConfig v bored_result)]
  /\ pieChart_ops
       (snd (sample_run v (respond_with bored_result) sample_page))
     = reset_ops SampleNum v ++ [NewChart (pieChartConfig v bored_result)]
  /\ barChart_ops
       (snd (sample_run v (respond_with bored_result) sample_page))
     = reset_ops SampleNum v ++ [NewChart (barChartConfig v bored_result)]
  /\ map (@ds_pointBackgroundColor SampleNum)
         (chart_datasets (lineChartConfig v bored_result))
     = [Some [VUndefined]]
  /\ map (@ds_backgroundColor SampleNum)
         (chart_datasets (pieChartConfig v bored_result))
     = [Some [VUndefined]]
  /\ map (@ds_backgroundColor SampleNum)
         (chart_datasets (barChartConfig v bored_result))
     = [Some [VUndefined]].
Proof. destruct v; repeat split; reflexivity. Qed.

(** C6, at a label that is a key of [Object.prototype] ([constructor]), in
    either variant: the table has no such entry, yet the lookup is truthy,
    so the tag's border and text color are the inherited member and not the
    fallback. *)
Theorem C6_inherited_key_color (v : Variant) :
  own_get (emotionColors v) (lit "constructor") = None
  /\ tags_children
       (snd (sample_run v (respond_with constructor_result) sample_page))
     = [ {| tag_className := lit "tag";
            tag_borderColor := VInherited (lit "constructor");
            tag_color := VInherited (lit "constructor");
            tag_textContent := lit "constructor (1)" |} ].
Proof. destruct v; split; reflexivity. Qed.

(** The tags of the specification's example. *)
Lemma tags_one_per_key_witness :
  tags_children (snd (sample_run Part000 sample_success sample_page))
  = [ {| tag_className := lit "tag";
         tag_borderColor := VString (lit "#FFD700");
         tag_color := VString (lit "#FFD700");
         tag_textContent := lit "joy (1)" |};
      {| tag_className := lit "tag";
         tag_borderColor := VString (lit "#1E90FF");
         tag_color := VString (lit "#1E90FF");
         tag_textContent := lit "sadness (1)" |} ].
Proof.
  assert (Hnd : NoDup (Object_keys (emotion_distribution sample_result))).
  { repeat constructor; simpl; intuition discriminate. }
  exact (@tags_one_per_key SampleNum sample_NumToString
           sample_InheritedToString accepting_Chart
           Part000 sample_success sample_page sample_result eq_refl Hnd).
Defined.

(** The three cases of the color resolution, at [joy], [bored] and
    [constructor]. *)
Lemma resolveColor_cases_witness :
  resolveColor Part000 (lit "joy") = VString (lit "#FFD700")
  /\ resolveColor Part000 (lit "bored") = fallbackColor
  /\ resolveColor Part000 (lit "constructor") = VInherited (lit "constructor").
Proof.
  split; [|split].
  - exact (proj1 (resolveColor_cases Part000 (lit "joy")) (lit "#FFD700") eq_refl).
  - exact (proj1 (proj2 (resolveColor_cases Part000 (lit "bored"))) eq_refl eq_refl).
  - exact (proj2 (proj2 (resolveColor_cases Part000 (lit "constructor")))
             eq_refl eq_refl).
Defined.

(** ** Further properties: the message list *)

Lemma split_nl_app_LF (a b : jsstring) :
  split_nl (a ++ LF :: b) = split_nl a ++ split_nl b.
Proof.
  induction a as [|c a IH]; [reflexivity|].
  change ((c :: a) ++ LF :: b) with (c :: (a ++ LF :: b)).
  cbn [split_nl]. rewrite IH.
  destruct (c =? LF); [reflexivity|].
  pose proof (split_nl_nonempty a) as Hne.
  destruct (split_nl a) as [|p rest]; [contradiction | reflexivity].
Qed.

Lemma split_nl_length (s : jsstring) :
  List.length (split_nl s) = S (List.length (filter (N.eqb LF) s)).
Proof.
  induction s as [|c s IH]; [reflexivity|].
  cbn [split_nl filter]. rewrite (N.eqb_sym LF c).
  destruct (c =? LF).
  - simpl. now rewrite IH.
  - pose proof (split_nl_nonempty s) as Hne.
    destruct (split_nl s) as [|p rest]; [contradiction | exact IH].
Qed.

Lemma filter_length_le {A} (f : A -> bool) (l : list A) :
  (List.length (filter f l) <= List.length l)%nat.
Proof.
  induction l as [|x l IH]; simpl; [lia|]. destruct (f x); simpl; lia.
Qed.

Lemma filter_all {A} (f : A -> bool) (l : list A) :
  Forall (fun x => f x = true) l -> filter f l = l.
Proof.
  induction 1 as [|x l Hx _ IH]; simpl; [reflexivity|]. now rewrite Hx, IH.
Qed.

Lemma messages_of_Forall (raw : jsstring) :
  Forall (fun m => In m (split_nl raw) /\ blank m = false) (messages_of raw).
Proof.
  rewrite messages_of_filter. apply Forall_forall. intros m Hin.
  apply filter_In in Hin as [Hin Hb]. split; [exact Hin|].
  now destruct (blank m).
Qed.

(** What the backend can rely on: every message of the list has a character
    that is not whitespace (so it is not the empty string), none contains a
    line feed, and there are at most as many messages as the input has line
    feeds, plus one. *)
Theorem messages_of_invariant (raw : jsstring) :
  Forall (fun m => m <> [] /\ no_newline m
                   /\ exists c, In c m /\ isWhiteSpace c = false)
         (messages_of raw)
  /\ (List.length (messages_of raw)
      <= S (List.length (filter (N.eqb LF) raw)))%nat.
Proof.
  split.
  - pose proof (messages_of_Forall raw) as H.
    pose proof (split_nl_no_newline raw) as Hnl.
    rewrite Forall_forall in *. intros m Hm.
    destruct (H m Hm) as [Hin Hb].
    assert (Hex : exists c, In c m /\ isWhiteSpace c = false).
    { unfold blank in Hb. clear - Hb. induction m as [|c m IH]; [discriminate|].
      simpl in Hb. destruct (isWhiteSpace c) eqn:E.
      - destruct (IH Hb) as (d & Hd & Hw). exists d. split; [now right|exact Hw].
      - exists c. split; [now left|exact E]. }
    split; [|split; [now apply Hnl | exact Hex]].
    intros ->. destruct Hex as (c & [] & _).
  - rewrite messages_of_filter, <- split_nl_length. apply filter_length_le.
Qed.

(** Texts compose: the messages of two texts put on separate lines are the
    messages of the first followed by those of the second; so a line feed
    at either end of the input, or an empty line inside, changes nothing. *)
Theorem messages_of_lines (a b : jsstring) :
  messages_of (a ++ LF :: b) = messages_of a ++ messages_of b
  /\ messages_of (a ++ [LF]) = messages_of a
  /\ messages_of (LF :: a) = messages_of a
  /\ messages_of (a ++ LF :: LF :: b) = messages_of (a ++ LF :: b).
Proof.
  assert (H : forall x y, messages_of (x ++ LF :: y)
                          = messages_of x ++ messages_of y).
  { intros x y. unfold messages_of. now rewrite split_nl_app_LF, filter_app. }
  split; [apply H|]. split; [|split].
  - rewrite H. change (messages_of []) with (@nil jsstring).
    apply app_nil_r.
  - apply (H [] a).
  - rewrite (H a (LF :: b)), (H a b). reflexivity.
Qed.

(** Typing the kept lines back, one per line, gives the same message list:
    the filter has nothing left to remove. *)
Theorem messages_of_round_trip (raw : jsstring) :
  messages_of (join_nl (messages_of raw)) = messages_of raw.
Proof.
  destruct (messages_of raw) as [|m ms] eqn:E; [reflexivity|].
  rewrite messages_of_filter.
  assert (HF : Forall (fun x => In x (split_nl raw) /\ blank x = false) (m :: ms)).
  { rewrite <- E. apply messages_of_Forall. }
  rewrite split_join_nl.
  - apply filter_all. eapply Forall_impl; [|exact HF].
    intros x [_ Hb]. simpl. now rewrite Hb.
  - discriminate.
  - pose proof (split_nl_no_newline raw) as Hnl. rewrite Forall_forall in *.
    intros x Hx. apply Hnl. now apply HF.
Qed.

(** ** Further properties: trimming *)

Lemma trimStart_split (s : jsstring) :
  exists pre, s = pre ++ trimStart s /\ blank pre = true.
Proof.
  induction s as [|c s (pre & Hs & Hb)]; [now exists []|].
  simpl. destruct (isWhiteSpace c) eqn:E.
  - exists (c :: pre). split; [simpl; now rewrite <- Hs|].
    unfold blank in *; simpl. now rewrite E.
  - now exists [].
Qed.

Lemma trimEnd_split (s : jsstring) :
  exists post, s = trimEnd s ++ post /\ blank post = true.
Proof.
  unfold trimEnd. destruct (trimStart_split (rev s)) as (pre & Hs & Hb).
  exists (rev pre). split; [|now rewrite blank_rev].
  rewrite <- rev_app_distr, <- Hs. now rewrite rev_involutive.
Qed.

Lemma trimStart_fixed (s : jsstring) :
  match s with [] => True | c :: _ => isWhiteSpace c = false end ->
  trimStart s = s.
Proof. destruct s as [|c s]; simpl; [reflexivity|]. now intros ->. Qed.

Lemma trim_ends (s : jsstring) :
  match trim s with [] => True | c :: _ => isWhiteSpace c = false end
  /\ match rev (trim s) with [] => True | c :: _ => isWhiteSpace c = false end.
Proof.
  unfold trim. split.
  - destruct (trimEnd_split (trimStart s)) as (post & Hs & _).
    pose proof (trimStart_head s) as Hh.
    destruct (trimEnd (trimStart s)) as [|c u]; [exact I|].
    rewrite Hs in Hh. exact Hh.
  - unfold trimEnd. rewrite rev_involutive. apply trimStart_head.
Qed.

(** [trim] removes a run of whitespace from each end and nothing else: what
    is left neither starts nor ends with whitespace, and trimming it again
    changes nothing. *)
Theorem trim_strips_both_ends (s : jsstring) :
  (exists pre post,
      s = pre ++ trim s ++ post /\ blank pre = true /\ blank post = true)
  /\ match trim s with [] => True | c :: _ => isWhiteSpace c = false end
  /\ match rev (trim s) with [] => True | c :: _ => isWhiteSpace c = false end
  /\ trim (trim s) = trim s.
Proof.
  destruct (trim_ends s) as [Hhead Hlast].
  split; [|split; [exact Hhead | split; [exact Hlast|]]].
  - destruct (trimStart_split s) as (pre & Hs & Hpre).
    destruct (trimEnd_split (trimStart s)) as (post & Ht & Hpost).
    exists pre, post. unfold trim. now rewrite <- Ht.
  - unfold trim at 1. rewrite (trimStart_fixed _ Hhead).
    unfold trimEnd. rewrite (trimStart_fixed _ Hlast). apply rev_involutive.
Qed.

(** ** Further properties: the request body *)

(** Reading a quoted string back, for the proofs below: the inverse of the
    escapes [QuoteJSONString] writes. *)
Definition hex_value (h : code_unit) : N := if h <? 58 then h - 48 else h - 87.

Definition unescape (e : code_unit) : code_unit :=
  if e =? 98 then 8 else if e =? 116 then 9 else if e =? 110 then 10
  else if e =? 102 then 12 else if e =? 114 then 13 else e.

(** The characters up to the closing quote, unescaped, and what follows
    the quote. *)
Fixpoint unquote_chars (s : jsstring) : option (jsstring * jsstring) :=
  match s with
  | [] => None
  | c :: s' =>
      if c =? DQUOTE then Some ([], s')
      else if c =? BACKSLASH then
        match s' with
        | [] => None
        | e :: s'' =>
            if e =? 117 then
              match s'' with
              | h1 :: h2 :: h3 :: h4 :: s3 =>
                  option_map
                    (fun p => (4096 * hex_value h1 + 256 * hex_value h2
                               + 16 * hex_value h3 + hex_value h4 :: fst p,
                               snd p))
                    (unquote_chars s3)
              | _ => None
              end
            else option_map (fun p => (unescape e :: fst p, snd p))
                            (unquote_chars s'')
        end
      else option_map (fun p => (c :: fst p, snd p)) (unquote_chars s')
  end.

Lemma hex_value_digit (d : N) : d < 16 -> hex_value (hex_digit d) = d.
Proof.
  intros Hd. unfold hex_value, hex_digit.
  destruct (d <? 10) eqn:E.
  - apply N.ltb_lt in E.
    replace (48 + d <? 58) with true by (symmetry; apply N.ltb_lt; lia). lia.
  - apply N.ltb_ge in E.
    replace (87 + d <? 58) with false by (symmetry; apply N.ltb_ge; lia). lia.
Qed.

Lemma hex4_value (c : code_unit) :
  c < 65536 ->
  4096 * ((c / 4096) mod 16) + 256 * ((c / 256) mod 16)
  + 16 * ((c / 16) mod 16) + c mod 16 = c.
Proof. intros Hc. zify. Z.to_euclidean_division_equations. lia. Qed.

Lemma unquote_unicode_escape (c : code_unit) (t : jsstring) :
  c < 65536 ->
  unquote_chars (unicode_escape c ++ t)
  = option_map (fun p => (c :: fst p, snd p)) (unquote_chars t).
Proof.
  intros Hc. unfold unicode_escape, hex4.
  cbn [app unquote_chars].
  change (BACKSLASH =? DQUOTE) with false.
  change (BACKSLASH =? BACKSLASH) with true.
  change (117 =? 117) with true. cbv iota.
  rewrite !hex_value_digit by (apply N.mod_lt; discriminate).
  now rewrite (hex4_value Hc).
Qed.

Lemma unquote_escape (x : code_unit) (t : jsstring) :
  (x =? 117) = false ->
  unquote_chars (BACKSLASH :: x :: t)
  = option_map (fun p => (unescape x :: fst p, snd p)) (unquote_chars t).
Proof.
  intros Hx. cbn [unquote_chars].
  change (BACKSLASH =? DQUOTE) with false.
  change (BACKSLASH =? BACKSLASH) with true. cbv iota. now rewrite Hx.
Qed.

Lemma unquote_raw (c : code_unit) (t : jsstring) :
  (c =? DQUOTE) = false -> (c =? BACKSLASH) = false ->
  unquote_chars (c :: t)
  = option_map (fun p => (c :: fst p, snd p)) (unquote_chars t).
Proof. intros H1 H2. cbn [unquote_chars]. now rewrite H1, H2. Qed.

(** Induction that may step over one or two code units, as [quote_chars]
    does at a surrogate pair. *)
Lemma two_step_ind (P : jsstring -> Prop) :
  P [] ->
  (forall c s, P s -> (forall d s', s = d :: s' -> P s') -> P (c :: s)) ->
  forall s, P s.
Proof.
  intros H0 Hstep s.
  enough (H : P s /\ (forall d s', s = d :: s' -> P s')) by apply H.
  induction s as [|c s [IH1 IH2]].
  - split; [exact H0 | discriminate].
  - split; [now apply Hstep | now intros d s' [= _ <-]].
Qed.

Lemma leading_range (c : code_unit) :
  isLeadingSurrogate c = true -> 55296 <= c /\ c <= 56319.
Proof.
  unfold isLeadingSurrogate. intros H. apply andb_true_iff in H as [H1 H2].
  split; now apply N.leb_le.
Qed.

Lemma trailing_range (c : code_unit) :
  isTrailingSurrogate c = true -> 56320 <= c /\ c <= 57343.
Proof.
  unfold isTrailingSurrogate. intros H. apply andb_true_iff in H as [H1 H2].
  split; now apply N.leb_le.
Qed.

Lemma not_quote_or_backslash (c : code_unit) :
  55296 <= c -> (c =? DQUOTE) = false /\ (c =? BACKSLASH) = false.
Proof.
  intros H. unfold DQUOTE, BACKSLASH. split; apply N.eqb_neq; lia.
Qed.

(** Reading back what [quote_chars] wrote, up to the closing quote, gives
    the string. *)
Lemma unquote_quote_chars (s rest : jsstring) :
  unquote_chars (quote_chars s ++ DQUOTE :: rest) = Some (s, rest).
Proof.
  revert rest. pattern s. apply two_step_ind; clear s.
  - intros rest. reflexivity.
  - intros c s IH IH2 rest. cbn [quote_chars].
    destruct (c =? 8) eqn:E8.
    { apply N.eqb_eq in E8; subst c. cbn [app].
      rewrite unquote_escape by reflexivity. now rewrite IH. }
    destruct (c =? 9) eqn:E9.
    { apply N.eqb_eq in E9; subst c. cbn [app].
      rewrite unquote_escape by reflexivity. now rewrite IH. }
    destruct (c =? 10) eqn:E10.
    { apply N.eqb_eq in E10; subst c. cbn [app].
      rewrite unquote_escape by reflexivity. now rewrite IH. }
    destruct (c =? 12) eqn:E12.
    { apply N.eqb_eq in E12; subst c. cbn [app].
      rewrite unquote_escape by reflexivity. now rewrite IH. }
    destruct (c =? 13) eqn:E13.
    { apply N.eqb_eq in E13; subst c. cbn [app].
      rewrite unquote_escape by reflexivity. now rewrite IH. }
    destruct (c =? DQUOTE) eqn:EQ.
    { apply N.eqb_eq in EQ; subst c. cbn [app].
      rewrite unquote_escape by reflexivity. now rewrite IH. }
    destruct (c =? BACKSLASH) eqn:EB.
    { apply N.eqb_eq in EB; subst c. cbn [app].
      rewrite unquote_escape by reflexivity. now rewrite IH. }
    destruct (c <? 32) eqn:E32.
    { apply N.ltb_lt in E32. rewrite <- app_assoc.
      rewrite unquote_unicode_escape by lia. now rewrite IH. }
    destruct (isLeadingSurrogate c) eqn:EL.
    { destruct (leading_range _ EL) as [Hlo Hhi].
      destruct s as [|d s'].
      - rewrite unquote_unicode_escape by lia. reflexivity.
      - destruct (isTrailingSurrogate d) eqn:ET.
        + destruct (trailing_range _ ET) as [Hlo' _].
          destruct (@not_quote_or_backslash c ltac:(lia)) as [Hc1 Hc2].
          destruct (@not_quote_or_backslash d ltac:(lia)) as [Hd1 Hd2].
          cbn [app]. rewrite (@unquote_raw c _ Hc1 Hc2), (@unquote_raw d _ Hd1 Hd2).
          now rewrite (IH2 d s' eq_refl).
        + rewrite <- app_assoc.
          rewrite unquote_unicode_escape by lia. now rewrite IH. }
    destruct (isTrailingSurrogate c) eqn:ET.
    { destruct (trailing_range _ ET) as [Hlo Hhi]. rewrite <- app_assoc.
      rewrite unquote_unicode_escape by lia. now rewrite IH. }
    cbn [app]. rewrite (@unquote_raw c _ EQ EB). now rewrite IH.
Qed.

Lemma QuoteJSONString_inv (x y t u : jsstring) :
  QuoteJSONString x ++ t = QuoteJSONString y ++ u -> x = y /\ t = u.
Proof.
  unfold QuoteJSONString. rewrite <- !app_assoc. cbn [app].
  intros [= H].
  assert (H' : unquote_chars (quote_chars x ++ DQUOTE :: t)
               = unquote_chars (quote_chars y ++ DQUOTE :: u)) by now rewrite H.
  rewrite !unquote_quote_chars in H'. now injection H'.
Qed.

Lemma QuoteJSONString_head (x : jsstring) :
  exists t, QuoteJSONString x = DQUOTE :: t.
Proof. unfold QuoteJSONString. cbn [app]. eauto. Qed.

Lemma join_quoted_inv (a b : list jsstring) :
  join_with (lit ",") (map QuoteJSONString a) ++ lit "]}"
  = join_with (lit ",") (map QuoteJSONString b) ++ lit "]}" ->
  a = b.
Proof.
  revert b; induction a as [|x a IH]; intros [|y b] H.
  - reflexivity.
  - exfalso. cbn [map join_with] in H.
    destruct (QuoteJSONString_head y) as (u & Hy).
    destruct b; cbn [map join_with] in H; rewrite Hy in H; discriminate H.
  - exfalso. cbn [map join_with] in H.
    destruct (QuoteJSONString_head x) as (u & Hx).
    destruct a; cbn [map join_with] in H; rewrite Hx in H; discriminate H.
  - assert (Hcons : forall z l,
               join_with (lit ",") (map QuoteJSONString (z :: l)) ++ lit "]}"
               = QuoteJSONString z
                 ++ match l with
                    | [] => lit "]}"
                    | _ => lit "," ++ join_with (lit ",") (map QuoteJSONString l)
                           ++ lit "]}"
                    end).
    { intros z [|z' l]; cbn [map join_with]; [reflexivity|].
      now rewrite <- !app_assoc. }
    rewrite !Hcons in H. apply QuoteJSONString_inv in H as [-> Ht].
    f_equal. destruct a as [|x' a], b as [|y' b].
    + reflexivity.
    + discriminate Ht.
    + discriminate Ht.
    + apply IH. now injection Ht.
Qed.

(** The body determines the message list: two inputs whose requests carry
    the same body carry the same messages, whatever characters (quotes,
    backslashes, control characters, lone surrogates) the lines hold. *)
Theorem JSON_stringify_payload_injective (a b : list jsstring) :
  JSON_stringify_payload a = JSON_stringify_payload b -> a = b.
Proof.
  unfold JSON_stringify_payload. intros H.
  apply app_inv_head in H. apply app_inv_head in H. apply app_inv_head in H.
  now apply join_quoted_inv.
Qed.

Lemma hex_digit_printable (d : N) : 32 <= hex_digit d.
Proof. unfold hex_digit. destruct (d <? 10); lia. Qed.

Lemma unicode_escape_printable (c : code_unit) :
  Forall (fun x => 32 <= x) (unicode_escape c).
Proof.
  unfold unicode_escape, hex4, BACKSLASH. cbn [app].
  repeat constructor; try apply hex_digit_printable; lia.
Qed.

Lemma quote_chars_printable (s : jsstring) :
  Forall (fun x => 32 <= x) (quote_chars s).
Proof.
  pattern s. apply two_step_ind; clear s; [constructor|].
  intros c s IH IH2. cbn [quote_chars].
  assert (Hesc : forall x, 32 <= x ->
                   Forall (fun x => 32 <= x) ([BACKSLASH; x] ++ quote_chars s)).
  { intros x Hx. cbn [app].
    constructor; [unfold BACKSLASH; lia|]. constructor; [exact Hx | exact IH]. }
  assert (Hu : Forall (fun x => 32 <= x) (unicode_escape c ++ quote_chars s)).
  { apply Forall_app. split; [apply unicode_escape_printable | exact IH]. }
  destruct (c =? 8); [apply Hesc; lia|].
  destruct (c =? 9); [apply Hesc; lia|].
  destruct (c =? 10); [apply Hesc; lia|].
  destruct (c =? 12); [apply Hesc; lia|].
  destruct (c =? 13); [apply Hesc; lia|].
  destruct (c =? DQUOTE); [apply Hesc; unfold DQUOTE; lia|].
  destruct (c =? BACKSLASH); [apply Hesc; unfold BACKSLASH; lia|].
  destruct (c <? 32) eqn:E32; [exact Hu|]. apply N.ltb_ge in E32.
  destruct (isLeadingSurrogate c) eqn:EL.
  { destruct s as [|d s']; [apply unicode_escape_printable|].
    destruct (isTrailingSurrogate d) eqn:ET; [|exact Hu].
    destruct (trailing_range _ ET) as [Hlo _].
    constructor; [exact E32|]. constructor; [lia | exact (IH2 d s' eq_refl)]. }
  destruct (isTrailingSurrogate c); [exact Hu|].
  constructor; [exact E32 | exact IH].
Qed.

Lemma QuoteJSONString_printable (m : jsstring) :
  Forall (fun c => 32 <= c) (QuoteJSONString m).
Proof.
  unfold QuoteJSONString. apply Forall_app. split.
  - constructor; [unfold DQUOTE; lia | constructor].
  - apply Forall_app. split; [apply quote_chars_printable|].
    constructor; [unfold DQUOTE; lia | constructor].
Qed.

Lemma join_printable (sep : jsstring) (l : list jsstring) :
  Forall (fun c => 32 <= c) sep ->
  Forall (Forall (fun c => 32 <= c)) l ->
  Forall (fun c => 32 <= c) (join_with sep l).
Proof.
  intros Hsep. induction 1 as [|x l Hx Hl IH]; [constructor|].
  destruct l as [|y l']; [exact Hx|].
  change (join_with sep (x :: y :: l'))
    with (x ++ sep ++ join_with sep (y :: l')).
  apply Forall_app; split; [exact Hx|].
  apply Forall_app; split; [exact Hsep | exact IH].
Qed.

Lemma printable_check (l : jsstring) :
  forallb (N.leb 32) l = true -> Forall (fun c => 32 <= c) l.
Proof.
  intros H. apply Forall_forall. intros c Hc.
  rewrite forallb_forall in H. now apply N.leb_le, H.
Qed.

Lemma printable_app (a b : jsstring) :
  Forall (fun c => 32 <= c) a -> Forall (fun c => 32 <= c) b ->
  Forall (fun c => 32 <= c) (a ++ b).
Proof. intros Ha Hb. apply Forall_app. now split. Qed.

(** The body holds no code unit below 32: every line feed, carriage
    return, tab, NUL or other C0 control character of a line is escaped.
    The escaping stops there: DEL, the C1 controls and the line and
    paragraph separators are written as they are. *)
Theorem JSON_stringify_payload_no_C0_control (messages : list jsstring) :
  Forall (fun c => 32 <= c) (JSON_stringify_payload messages)
  /\ QuoteJSONString [127; 133; 8232; 8233]
     = [DQUOTE; 127; 133; 8232; 8233; DQUOTE].
Proof.
  split; [|reflexivity].
  unfold JSON_stringify_payload.
  apply printable_app; [now apply printable_check|].
  apply printable_app; [apply QuoteJSONString_printable|].
  apply printable_app; [now apply printable_check|].
  apply printable_app; [|now apply printable_check].
  apply join_printable; [now apply printable_check|].
  apply Forall_forall. intros q Hq. apply in_map_iff in Hq as (m & <- & _).
  apply QuoteJSONString_printable.
Qed.

(** ** Further properties: the request adapter and the handler *)

Section HandlerProperties.

Variable Num : Type.
Variable NumToString : Num -> jsstring.
Variable InheritedToString : jsstring -> jsstring.
Variable ChartCtor :
  CanvasId -> list (CanvasOp Num) -> ChartConfig Num -> option JsError.

(** The two variants of [analyzeChat] side by side: [part_000] returns a
    result exactly when [Frontend/script.js] returns it and the status is a
    success; on a status that is not a success, where [part_000] throws its
    backend error, [Frontend/script.js] hands the parsed body to the
    renderer. *)
Theorem analyzeChat_variants (net : FetchOutcome Num)
        (messages : list jsstring) (w : World Num) (r : AnalysisResult Num) :
  (fst (analyzeChat Part000 net messages w) = Returned r
   <-> fst (analyzeChat FrontendScript net messages w) = Returned r
       /\ exists resp, net = Responds resp /\ ok resp = true)
  /\ (fst (analyzeChat FrontendScript net messages w) = Returned r
      <-> exists resp, net = Responds resp /\ body resp = ParsesTo r)
  /\ snd (analyzeChat Part000 net messages w)
     = set_requests (requests w ++ [analyze_request Part000 messages]) w
  /\ snd (analyzeChat FrontendScript net messages w)
     = set_requests (requests w ++ [analyze_request FrontendScript messages]) w.
Proof.
  rewrite !analyzeChat_run. cbn [fst snd].
  split; [|split; [|split; reflexivity]].
  - destruct net as [e|resp]; cbn [analyzeChat_outcome].
    + split; [discriminate|]. intros [H _]. discriminate H.
    + destruct (ok resp) eqn:Hok.
      * split; [intros H; split; [exact H | eauto]|]. now intros [H _].
      * split; [discriminate|]. intros [_ (resp' & [= <-] & Hok')]. congruence.
  - destruct net as [e|resp]; cbn [analyzeChat_outcome].
    + split; [discriminate|]. intros (resp & H & _). discriminate H.
    + destruct (body resp) as [x|e] eqn:Hb.
      * split; [intros [= ->]; eauto|].
        intros (resp' & [= <-] & Hb'). congruence.
      * split; [discriminate|].
        intros (resp' & [= <-] & Hb'). congruence.
Qed.

(** What a click does besides rendering, whatever the request meets and
    whatever Chart.js does: it sends exactly one request, leaves the text of
    the input box as it is, and shows an alert only in [part_000] and only
    when the analysis call threw, then exactly one. *)
Theorem click_effects (v : Variant) (net : FetchOutcome Num) (w : World Num) :
  let out := clickHandler NumToString InheritedToString ChartCtor v net w in
  inputBox_value (snd out) = inputBox_value w
  /\ List.length (requests (snd out)) = S (List.length (requests w))
  /\ alerts (snd out)
     = alerts w
       ++ match v, fst (analyzeChat v net (messages_of (inputBox_value w)) w) with
          | Part000, Threw e =>
              [lit "Error connecting to backend: " ++ err_message e]
          | _, _ => []
          end.
Proof.
  cbv zeta. rewrite clickHandler_run, analyzeChat_run. cbn [fst].
  assert (Hrender : forall r,
    let out := render NumToString InheritedToString ChartCtor v r (logged v w) in
    inputBox_value (snd out) = inputBox_value w
    /\ List.length (requests (snd out)) = S (List.length (requests w))
    /\ alerts (snd out) = alerts w).
  { intros r. cbv zeta. rewrite render_steps.
    destruct (draw_charts_frame ChartCtor v r
                (page_before_charts NumToString InheritedToString v r (logged v w)))
      as (-> & _ & _ & _ & _ & -> & ->).
    cbn. rewrite length_app. cbn. repeat split; lia. }
  destruct v; destruct (analyzeChat_outcome _ net) as [r|e];
    try (destruct (Hrender r) as (-> & -> & ->); now rewrite app_nil_r);
    cbn; rewrite length_app, ?app_nil_r; cbn; repeat split; lia.
Qed.


(** A chart constructor that throws interrupts the handler after the page
    is filled: if [new Chart] on [timelineChart] throws, the promise rejects
    with that error, the sections are revealed and trend, tags and
    breakdown show the new result, while no canvas has received a chart:
    each carries what it had and, in [part_000], the [clearRect]. *)
Theorem chart_throw_partial_render (v : Variant) (net : FetchOutcome Num)
        (w : World Num) (r : AnalysisResult Num) (e : JsError) :
  fst (analyzeChat v net (messages_of (inputBox_value w)) w) = Returned r ->
  ChartCtor timelineChart (timelineChart_ops w ++ reset_ops Num v)
            (lineChartConfig v r) = Some e ->
  let out := clickHandler NumToString InheritedToString ChartCtor v net w in
  fst out = Threw e
  /\ hidden_class (snd out) = map (fun _ => false) (hidden_class w)
  /\ trendBox_innerHTML (snd out) = emotional_trend r
  /\ tags_children (snd out)
     = map (make_tag NumToString v (emotion_distribution r))
           (Object_keys (emotion_distribution r))
  /\ breakdown_children (snd out)
     = map_from 0 (make_item InheritedToString v) (timeline r)
  /\ timelineChart_ops (snd out) = timelineChart_ops w ++ reset_ops Num v
  /\ pieChart_ops (snd out) = pieChart_ops w ++ reset_ops Num v
  /\ barChart_ops (snd out) = barChart_ops w ++ reset_ops Num v.
Proof.
  intros Hr He. cbv zeta.
  rewrite (clickHandler_returned NumToString InheritedToString ChartCtor v net w Hr).
  unfold draw_charts, bind, newChart. cbn. rewrite He. cbn.
  repeat split; reflexivity.
Qed.

(** The trend, the tags and the breakdown after a click depend on the
    result alone: from any two pages, two clicks of the same variant that
    get the same result leave the same trend text, the same tags and the
    same breakdown items; nothing of what the containers held before
    survives. *)
Theorem rendered_page_from_result_alone (v : Variant)
        (net1 net2 : FetchOutcome Num) (w1 w2 : World Num)
        (r : AnalysisResult Num) :
  fst (analyzeChat v net1 (messages_of (inputBox_value w1)) w1) = Returned r ->
  fst (analyzeChat v net2 (messages_of (inputBox_value w2)) w2) = Returned r ->
  let out1 := clickHandler NumToString InheritedToString ChartCtor v net1 w1 in
  let out2 := clickHandler NumToString InheritedToString ChartCtor v net2 w2 in
  trendBox_innerHTML (snd out1) = trendBox_innerHTML (snd out2)
  /\ tags_children (snd out1) = tags_children (snd out2)
  /\ breakdown_children (snd out1) = breakdown_children (snd out2).
Proof.
  intros H1 H2. cbv zeta.
  rewrite (clickHandler_returned NumToString InheritedToString ChartCtor v net1 w1 H1).
  rewrite (clickHandler_returned NumToString InheritedToString ChartCtor v net2 w2 H2).
  destruct (draw_charts_frame ChartCtor v r
              (page_before_charts NumToString InheritedToString v r (logged v w1)))
    as (_ & _ & -> & -> & -> & _ & _).
  destruct (draw_charts_frame ChartCtor v r
              (page_before_charts NumToString InheritedToString v r (logged v w2)))
    as (_ & _ & -> & -> & -> & _ & _).
  cbn. repeat split; reflexivity.
Qed.

End HandlerProperties.

(** ** Further properties: colors and charts *)

Lemma own_get_app_last {A} (o : list (jsstring * A)) (k e : jsstring) (x : A) :
  own_get (o ++ [(k, x)]) e
  = match own_get o e with
    | Some y => Some y
    | None => if str_eqb e k then Some x else None
    end.
Proof.
  induction o as [|[k' y] o IH]; simpl; [reflexivity|].
  destruct (str_eqb e k'); [reflexivity | exact IH].
Qed.

Lemma emotionColors_Part000 :
  emotionColors Part000
  = emotionColors FrontendScript ++ [(lit "uncertain", lit "#999999")].
Proof. reflexivity. Qed.

Lemma emotionColors_get_variants (e : jsstring) :
  e <> lit "uncertain" ->
  emotionColors_get Part000 e = emotionColors_get FrontendScript e.
Proof.
  intros Hne. unfold emotionColors_get.
  rewrite emotionColors_Part000, own_get_app_last.
  destruct (own_get (emotionColors FrontendScript) e); [reflexivity|].
  destruct (str_eqb e (lit "uncertain")) eqn:E; [|reflexivity].
  apply str_eqb_eq in E. contradiction.
Qed.

Lemma table_colors_not_fallback (v : Variant) :
  forallb (fun c => negb (str_eqb c (lit "#888"))) (map snd (emotionColors v))
  = true.
Proof. destruct v; reflexivity. Qed.

(** The fallback is taken exactly by the labels whose lookup is
    [undefined]; whatever the label, the color given to a tag or a breakdown
    label is never [undefined] nor the empty string. *)
Theorem fallback_iff_undefined (v : Variant) (e : jsstring) :
  (resolveColor v e = fallbackColor <-> emotionColors_get v e = VUndefined)
  /\ truthy (resolveColor v e) = true.
Proof.
  unfold resolveColor, js_or, emotionColors_get.
  destruct (own_get (emotionColors v) e) as [c|] eqn:Hc.
  - pose proof (table_colors_truthy v) as Ht.
    pose proof (table_colors_not_fallback v) as Hf.
    rewrite forallb_forall in Ht, Hf.
    specialize (Ht c (own_get_In _ _ Hc)). specialize (Hf c (own_get_In _ _ Hc)).
    cbn [truthy]. rewrite Ht. cbn [truthy]. rewrite Ht.
    split; [|reflexivity]. split; [|discriminate].
    unfold fallbackColor. intros [= ->]. rewrite str_eqb_refl in Hf.
    discriminate Hf.
  - destruct (existsb (str_eqb e) ObjectPrototype_keys); cbn.
    + split; [|reflexivity]. split; discriminate.
    + split; [|reflexivity]. split; reflexivity.
Qed.

Lemma lit_injective (a b : string) : lit a = lit b -> a = b.
Proof.
  unfold lit. intros H.
  rewrite <- (string_of_list_ascii_of_string a),
          <- (string_of_list_ascii_of_string b).
  f_equal. revert H.
  generalize (list_ascii_of_string a) (list_ascii_of_string b).
  intros l; induction l as [|x l IH]; intros [|y l']; simpl;
    try discriminate; [reflexivity|].
  intros [= Hxy Hl]. f_equal; [|now apply IH].
  rewrite <- (ascii_N_embedding x), <- (ascii_N_embedding y). now rewrite Hxy.
Qed.

Lemma to_uint_nonnil (n : nat) : Nat.to_uint n <> Decimal.Nil.
Proof.
  rewrite <- (DecimalNat.Unsigned.of_to n) at 1.
  rewrite DecimalNat.Unsigned.to_of. apply DecimalFacts.unorm_nonnil.
Qed.

(** The decimal text of an index determines the index. *)
Lemma nat_to_string_injective (n m : nat) :
  nat_to_string n = nat_to_string m -> n = m.
Proof.
  unfold nat_to_string. intros H. apply lit_injective in H.
  apply DecimalNat.Unsigned.to_uint_inj.
  assert (Hs : Some (Nat.to_uint n) = Some (Nat.to_uint m)).
  { rewrite <- (NilZero.usu (Nat.to_uint n)) by apply to_uint_nonnil.
    rewrite <- (NilZero.usu (Nat.to_uint m)) by apply to_uint_nonnil.
    now rewrite H. }
  now injection Hs.
Qed.

Section ChartProperties.

Variable Num : Type.
Variable NumToString : Num -> jsstring.

(** The two variants differ in their colors on the label [uncertain] only:
    for a result that does not use it they build the same three chart
    configurations and the same tags. *)
Theorem variants_agree_off_uncertain (r : AnalysisResult Num) :
  ~ In (lit "uncertain") (Object_keys (emotion_distribution r)) ->
  ~ In (lit "uncertain") (map (@emotion Num) (timeline r)) ->
  lineChartConfig Part000 r = lineChartConfig FrontendScript r
  /\ pieChartConfig Part000 r = pieChartConfig FrontendScript r
  /\ barChartConfig Part000 r = barChartConfig FrontendScript r
  /\ map (make_tag NumToString Part000 (emotion_distribution r))
         (Object_keys (emotion_distribution r))
     = map (make_tag NumToString FrontendScript (emotion_distribution r))
           (Object_keys (emotion_distribution r)).
Proof.
  intros Hk Ht.
  assert (Hkeys : map (fun e => emotionColors_get Part000 e)
                      (Object_keys (emotion_distribution r))
                  = map (fun e => emotionColors_get FrontendScript e)
                        (Object_keys (emotion_distribution r))).
  { apply map_ext_in. intros e He. apply emotionColors_get_variants.
    intros ->. contradiction. }
  assert (Htl : map (fun t => emotionColors_get Part000 (emotion t)) (timeline r)
                = map (fun t => emotionColors_get FrontendScript (emotion t))
                      (timeline r)).
  { apply map_ext_in. intros t Hin. apply emotionColors_get_variants.
    intros E. apply Ht. rewrite <- E. now apply in_map. }
  unfold lineChartConfig, pieChartConfig, barChartConfig.
  rewrite Htl, Hkeys.
  split; [reflexivity|]. split; [reflexivity|]. split; [reflexivity|].
  apply map_ext_in. intros e He. unfold make_tag, resolveColor.
  rewrite emotionColors_get_variants; [reflexivity|].
  intros ->. contradiction.
Qed.

(** Each slice of the pie and each bar carries the count and the color of
    its own label: at every position the datum is the distribution's value
    for the label at that position and the color is the table's lookup of
    that label. *)
Theorem slices_match_labels (v : Variant) (r : AnalysisResult Num)
        (i : nat) (k : jsstring) :
  NoDup (Object_keys (emotion_distribution r)) ->
  nth_error (Object_keys (emotion_distribution r)) i = Some k ->
  nth_error (chart_labels (pieChartConfig v r)) i = Some k
  /\ nth_error (chart_labels (barChartConfig v r)) i = Some k
  /\ map (fun ds => nth_error (ds_data ds) i) (chart_datasets (pieChartConfig v r))
     = [own_get (emotion_distribution r) k]
  /\ map (fun ds => nth_error (ds_data ds) i) (chart_datasets (barChartConfig v r))
     = [own_get (emotion_distribution r) k]
  /\ map (fun ds => option_map (fun cs => nth_error cs i) (ds_backgroundColor ds))
         (chart_datasets (pieChartConfig v r))
     = [Some (Some (emotionColors_get v k))]
  /\ map (fun ds => option_map (fun cs => nth_error cs i) (ds_backgroundColor ds))
         (chart_datasets (barChartConfig v r))
     = [Some (Some (emotionColors_get v k))].
Proof.
  intros Hnd Hk. cbn.
  assert (Hdata : nth_error (Object_values (emotion_distribution r)) i
                  = own_get (emotion_distribution r) k).
  { unfold Object_keys, Object_values in *.
    rewrite nth_error_map in Hk |- *.
    destruct (nth_error (emotion_distribution r) i) as [[k' n]|] eqn:E;
      [|discriminate Hk].
    cbn in Hk |- *. injection Hk as ->. symmetry.
    apply own_get_NoDup; [exact Hnd | eapply nth_error_In; exact E]. }
  rewrite Hdata, nth_error_map, Hk. cbn. repeat split; assumption.
Qed.

(** The labels of the line chart are pairwise distinct, one per timeline
    entry. *)
Theorem line_labels_distinct (v : Variant) (r : AnalysisResult Num) :
  NoDup (chart_labels (lineChartConfig v r))
  /\ List.length (chart_labels (lineChartConfig v r)) = List.length (timeline r).
Proof.
  unfold lineChartConfig; cbn [chart_labels].
  rewrite (map_from_seq (fun i => lit "Message " ++ nat_to_string (i + 1))).
  split; [|now rewrite length_map, length_seq].
  apply Finite.Injective_map_NoDup; [|apply seq_NoDup].
  intros a b H. apply app_inv_head in H. apply nat_to_string_injective in H.
  lia.
Qed.

End ChartProperties.

(** ** The further properties at sample runs *)

Definition is_chart (op : CanvasOp SampleNum) : bool :=
  match op with
  | NewChart _ => true
  | ClearRect _ _ _ _ _ => false
  end.

Definition canvas_in_use : JsError :=
  {| err_name := lit "Error"; err_message := lit "Canvas is already in use." |}.

(** A Chart.js whose constructor throws on a canvas that already carries a
    chart. *)
Definition reuse_rejecting_Chart :
  CanvasId -> list (CanvasOp SampleNum) -> ChartConfig SampleNum -> option JsError :=
  fun _ history _ => if existsb is_chart history then Some canvas_in_use else None.

(** The page after a first click of [part_000] that got the sample result. *)
Definition drawn_page : World SampleNum :=
  snd (sample_run Part000 sample_success sample_page).

(** A trailing and a leading line feed give the same body, hence the same
    messages. *)
Lemma JSON_stringify_payload_injective_witness :
  messages_of (lit "hi" ++ [LF]) = messages_of (LF :: lit "hi").
Proof.
  exact (@JSON_stringify_payload_injective
           (messages_of (lit "hi" ++ [LF])) (messages_of (LF :: lit "hi"))
           eq_refl).
Defined.


(** The same second click: tags are rendered again, the canvases are left
    cleared and without a new chart. *)
Lemma chart_throw_partial_render_witness :
  let out := clickHandler sample_NumToString sample_InheritedToString
                          reuse_rejecting_Chart Part000 sample_success drawn_page in
  fst out = Threw canvas_in_use
  /\ map tag_textContent (tags_children (snd out))
     = [lit "joy (1)"; lit "sadness (1)"]
  /\ pieChart_ops (snd out)
     = [ ClearRect SampleNum 0 0 400 400;
         NewChart (pieChartConfig Part000 sample_result);
         ClearRect SampleNum 0 0 400 400 ].
Proof.
  cbv zeta.
  destruct (@chart_throw_partial_render SampleNum sample_NumToString
              sample_InheritedToString reuse_rejecting_Chart
              Part000 sample_success drawn_page sample_result canvas_in_use
              eq_refl eq_refl)
    as (Hout & _ & _ & Htags & _ & _ & Hpie & _).
  split; [exact Hout|]. split.
  - rewrite Htags. reflexivity.
  - rewrite Hpie. reflexivity.
Defined.

(** A click on the empty page and a click on the drawn page show the same
    tags and breakdown. *)
Lemma rendered_page_from_result_alone_witness :
  tags_children (snd (sample_run Part000 sample_success sample_page))
  = tags_children (snd (sample_run Part000 sample_success drawn_page))
  /\ breakdown_children (snd (sample_run Part000 sample_success sample_page))
     = breakdown_children (snd (sample_run Part000 sample_success drawn_page)).
Proof.
  destruct (@rendered_page_from_result_alone SampleNum sample_NumToString
              sample_InheritedToString accepting_Chart
              Part000 sample_success sample_success sample_page drawn_page
              sample_result eq_refl eq_refl)
    as (_ & Htags & Hitems).
  split; [exact Htags | exact Hitems].
Defined.

(** The sample result does not use [uncertain]: both variants build the
    same line chart for it. *)
Lemma variants_agree_off_uncertain_witness :
  lineChartConfig Part000 sample_result
  = lineChartConfig FrontendScript sample_result.
Proof.
  refine (proj1 (@variants_agree_off_uncertain SampleNum sample_NumToString
                   sample_result _ _)).
  - simpl. intros [H|[H|[]]]; discriminate H.
  - simpl. intros [H|[H|[]]]; discriminate H.
Defined.

(** The second slice of the sample result: [sadness], its count and its
    color. *)
Lemma slices_match_labels_witness :
  nth_error (chart_labels (pieChartConfig Part000 sample_result)) 1
  = Some (lit "sadness")
  /\ map (fun ds => nth_error (ds_data ds) 1)
         (chart_datasets (pieChartConfig Part000 sample_result))
     = [Some "1"%string]
  /\ map (fun ds => option_map (fun cs => nth_error cs 1) (ds_backgroundColor ds))
         (chart_datasets (pieChartConfig Part000 sample_result))
     = [Some (Some (VString (lit "#1E90FF")))].
Proof.
  assert (Hnd : NoDup (Object_keys (emotion_distribution sample_result))).
  { repeat constructor; simpl; intuition discriminate. }
  destruct (@slices_match_labels SampleNum Part000 sample_result 1%nat
              (lit "sadness") Hnd eq_refl)
    as (Hl & _ & Hd & _ & Hc & _).
  split; [exact Hl|]. split; [exact Hd | exact Hc].
Defined.
